(** * A shallow embedding of the job-recommendation backend

    The Python sources under [Lambda-Functions/] are embedded function by
    function: [job_scraper.py], [embedding_service.py],
    [opensearch_manager.py] and the recommendation handler of
    [Lambda_function-1.py].  Python values are modelled by the types of
    module [Py]; the services the program talks to (Bedrock, OpenSearch)
    are modelled as explicit client records and scripted worlds, so that
    every function stays executable. *)

From Stdlib Require Import String Ascii DecimalString.
From Stdlib Require Import List NArith ZArith QArith Qround Bool Lia Arith.
Import ListNotations.
Close Scope Q_scope.

Set Implicit Arguments.

(* ================================================================== *)
(** * Python values *)
(* ================================================================== *)

Module Py.

(** A Python [str] is a sequence of Unicode code points; [len] counts
    code points. *)
Definition codepoint := N.
Definition pystr := list codepoint.

(** [len(s)] *)
Definition len {A} (s : list A) : N := N.of_nat (length s).

(** Literals: the code points of an ASCII literal of the source. *)
Definition py (s : string) : pystr := map N_of_ascii (list_ascii_of_string s).

Fixpoint str_eqb (a b : pystr) : bool :=
  match a, b with
  | [], [] => true
  | x :: a', y :: b' => N.eqb x y && str_eqb a' b'
  | _, _ => false
  end.

(** [a.startswith(p)] *)
Fixpoint startswith (p a : pystr) : bool :=
  match p, a with
  | [], _ => true
  | x :: p', y :: a' => N.eqb x y && startswith p' a'
  | _ :: _, [] => false
  end.

(** [p in a] for strings: substring test. *)
Fixpoint contains (p a : pystr) : bool :=
  startswith p a ||
  match a with
  | [] => false
  | _ :: a' => contains p a'
  end.

(** [str.isspace] for one character: the code points Python treats as
    whitespace (this is the set [str.strip()] removes). *)
Definition isspace (c : codepoint) : bool :=
  ((9 <=? c) && (c <=? 13) || (28 <=? c) && (c <=? 32)
   || (c =? 133) || (c =? 160) || (c =? 5760)
   || (8192 <=? c) && (c <=? 8202)
   || (c =? 8232) || (c =? 8233) || (c =? 8239) || (c =? 8287)
   || (c =? 12288))%N.

Fixpoint lstrip (s : pystr) : pystr :=
  match s with
  | c :: s' => if isspace c then lstrip s' else s
  | [] => []
  end.

Fixpoint rstrip (s : pystr) : pystr :=
  match s with
  | [] => []
  | c :: s' =>
      match rstrip s' with
      | [] => if isspace c then [] else [c]
      | r => c :: r
      end
  end.

(** [s.strip()] *)
Definition strip (s : pystr) : pystr := rstrip (lstrip s).

(** [str.lower] restricted to ASCII letters; used to run the model on
    ASCII inputs.  The general case mapping is a table of the Python
    runtime and is a parameter of the functions that call it. *)
Definition ascii_lower (s : pystr) : pystr :=
  map (fun c => if (65 <=? c) && (c <=? 90) then c + 32 else c)%N s.

(** Python exceptions: the class name and [str(e)]. *)
Record exn := Exn { exn_type : string; exn_msg : pystr }.

(** Result of a call that may raise. *)
Inductive result (A : Type) : Type :=
| Ok (a : A)
| Raise (e : exn).
Arguments Ok {A} a.
Arguments Raise {A} e.

Definition bind {A B} (r : result A) (k : A -> result B) : result B :=
  match r with
  | Ok a => k a
  | Raise e => Raise e
  end.

Definition is_ok {A} (r : result A) : bool :=
  match r with Ok _ => true | Raise _ => false end.

(** [s.encode()]: UTF-8, strict.  Lone surrogates raise
    [UnicodeEncodeError]; values above U+10FFFF are not characters of a
    Python [str] and are rejected the same way. *)
Definition utf8_char (c : codepoint) : option (list N) :=
  (if c <? 128 then Some [c]
   else if c <? 2048 then
     Some [N.lor 192 (N.shiftr c 6); N.lor 128 (N.land c 63)]
   else if c <? 65536 then
     if (55296 <=? c) && (c <=? 57343) then None
     else Some [N.lor 224 (N.shiftr c 12);
                N.lor 128 (N.land (N.shiftr c 6) 63);
                N.lor 128 (N.land c 63)]
   else if c <? 1114112 then
     Some [N.lor 240 (N.shiftr c 18);
           N.lor 128 (N.land (N.shiftr c 12) 63);
           N.lor 128 (N.land (N.shiftr c 6) 63);
           N.lor 128 (N.land c 63)]
   else None)%N.

Fixpoint encode (s : pystr) : result (list N) :=
  match s with
  | [] => Ok []
  | c :: s' =>
      match utf8_char c with
      | None => Raise (Exn "UnicodeEncodeError" (py "surrogates not allowed"))
      | Some bs => bind (encode s') (fun rest => Ok (bs ++ rest))
      end
  end.

(** Unicode scalar values: the code points [encode] accepts. *)
Definition is_scalar (c : codepoint) : bool :=
  ((c <? 55296) || (57344 <=? c) && (c <? 1114112))%N.

(** The characters of a [hexdigest()]. *)
Definition is_hexdigit (c : codepoint) : bool :=
  ((48 <=? c) && (c <=? 57) || (97 <=? c) && (c <=? 102))%N.

(** [str(n)] for a non-negative integer. *)
Definition str_of_nat (n : nat) : pystr :=
  py (NilZero.string_of_uint (Nat.to_uint n)).

(** JSON-like Python values: what [json.loads] produces and what the
    documents of the index are made of.  A [float] is represented by
    the rational it denotes; a [dict] keeps its insertion order. *)
#[warnings="-register-all"]
Inductive json : Type :=
| JNull
| JBool (b : bool)
| JInt (z : Z)
| JFloat (q : Q)
| JStr (s : pystr)
| JList (l : list json)
| JDict (d : list (pystr * json)).

(** [bool(v)] *)
Definition truthy (v : json) : bool :=
  match v with
  | JNull => false
  | JBool b => b
  | JInt z => negb (Z.eqb z 0)
  | JFloat q => negb (Qeq_bool q 0)
  | JStr s => match s with [] => false | _ => true end
  | JList l => match l with [] => false | _ => true end
  | JDict d => match d with [] => false | _ => true end
  end.

Definition is_none (v : json) : bool :=
  match v with JNull => true | _ => false end.

(** [isinstance(v, (int, float))]; [bool] is a subclass of [int]. *)
Definition is_int_or_float (v : json) : bool :=
  match v with
  | JBool _ | JInt _ | JFloat _ => true
  | _ => false
  end.

(** [repr(type(v))] as it appears in the error messages. *)
Definition type_repr (v : json) : pystr :=
  match v with
  | JNull => py "<class 'NoneType'>"
  | JBool _ => py "<class 'bool'>"
  | JInt _ => py "<class 'int'>"
  | JFloat _ => py "<class 'float'>"
  | JStr _ => py "<class 'str'>"
  | JList _ => py "<class 'list'>"
  | JDict _ => py "<class 'dict'>"
  end.

Definition ValueError (msg : pystr) : exn := Exn "ValueError" msg.

(** [type(v).__name__] *)
Definition type_name (v : json) : pystr :=
  match v with
  | JNull => py "NoneType"
  | JBool _ => py "bool"
  | JInt _ => py "int"
  | JFloat _ => py "float"
  | JStr _ => py "str"
  | JList _ => py "list"
  | JDict _ => py "dict"
  end.

(** [len(v)] for a value: raises [TypeError] on values without a length. *)
Definition json_len (v : json) : result N :=
  match v with
  | JStr s => Ok (len s)
  | JList l => Ok (len l)
  | JDict d => Ok (len d)
  | _ => Raise (Exn "TypeError"
                  (py "object of type '" ++ type_name v ++ py "' has no len()"))
  end.

(** Python dictionaries with string keys, in insertion order. *)
Definition dict := list (pystr * json).

(** [d.get(k)] *)
Fixpoint dict_get (k : pystr) (d : dict) : option json :=
  match d with
  | [] => None
  | (k', v) :: d' => if str_eqb k k' then Some v else dict_get k d'
  end.

(** [k in d] *)
Definition dict_in (k : pystr) (d : dict) : bool :=
  match dict_get k d with Some _ => true | None => false end.

(** [{k': v for k', v in d.items() if k' != k}], also [del d[k]] on a
    dictionary that has the key. *)
Definition dict_remove (k : pystr) (d : dict) : dict :=
  filter (fun kv => negb (str_eqb (fst kv) k)) d.

(** [d[k] = v] *)
Fixpoint dict_set (k : pystr) (v : json) (d : dict) : dict :=
  match d with
  | [] => [(k, v)]
  | (k', v') :: d' =>
      if str_eqb k k' then (k, v) :: d' else (k', v') :: dict_set k v d'
  end.

(** [d.get(k, default)] *)
Definition dict_get_default (k : pystr) (default : json) (d : dict) : json :=
  match dict_get k d with Some v => v | None => default end.

(** Computations over a state [S] that may raise: the calls to a
    remote service. *)
Definition stm (S A : Type) : Type := S -> result A * S.

Definition ret {S A} (a : A) : stm S A := fun st => (Ok a, st).
Definition raise {S A} (e : exn) : stm S A := fun st => (Raise e, st).
Definition lift {S A} (r : result A) : stm S A := fun st => (r, st).
Definition mbind {S A B} (m : stm S A) (k : A -> stm S B) : stm S B :=
  fun st => match m st with
            | (Ok a, st') => k a st'
            | (Raise e, st') => (Raise e, st')
            end.
(** [try: m  except Exception as e: h e] *)
Definition mtry {S A} (m : stm S A) (h : exn -> stm S A) : stm S A :=
  fun st => match m st with
            | (Ok a, st') => (Ok a, st')
            | (Raise e, st') => h e st'
            end.

End Py.

Import Py.

Arguments py : simpl never.
Arguments str_of_nat : simpl never.

Declare Scope py_scope.
Delimit Scope py_scope with py.
Notation "x <- c ;; k" := (bind c (fun x => k))
  (at level 61, c at next level, right associativity) : py_scope.

Declare Scope stm_scope.
Delimit Scope stm_scope with stm.
Notation "x <- c ;; k" := (mbind c (fun x => k))
  (at level 61, c at next level, right associativity) : stm_scope.

(* ================================================================== *)
(** * hashlib.md5 *)
(* ================================================================== *)

Module MD5.
Local Open Scope N_scope.

Definition w32 (x : N) : N := x mod 2 ^ 32.
Definition add32 (x y : N) : N := w32 (x + y).
Definition not32 (x : N) : N := N.lxor (w32 x) 4294967295.
Definition rotl32 (x c : N) : N :=
  w32 (N.lor (N.shiftl x c) (N.shiftr (w32 x) (32 - c))).

(** Per-round shift amounts. *)
Definition S : list N :=
  [7; 12; 17; 22; 7; 12; 17; 22; 7; 12; 17; 22; 7; 12; 17; 22;
   5; 9; 14; 20; 5; 9; 14; 20; 5; 9; 14; 20; 5; 9; 14; 20;
   4; 11; 16; 23; 4; 11; 16; 23; 4; 11; 16; 23; 4; 11; 16; 23;
   6; 10; 15; 21; 6; 10; 15; 21; 6; 10; 15; 21; 6; 10; 15; 21].

(** [K i = floor (2^32 * abs (sin (i + 1)))]. *)
Definition K : list N :=
  [3614090360; 3905402710; 606105819; 3250441966; 4118548399; 1200080426;
   2821735955; 4249261313; 1770035416; 2336552879; 4294925233; 2304563134;
   1804603682; 4254626195; 2792965006; 1236535329; 4129170786; 3225465664;
   643717713; 3921069994; 3593408605; 38016083; 3634488961; 3889429448;
   568446438; 3275163606; 4107603335; 1163531501; 2850285829; 4243563512;
   1735328473; 2368359562; 4294588738; 2272392833; 1839030562; 4259657740;
   2763975236; 1272893353; 4139469664; 3200236656; 681279174; 3936430074;
   3572445317; 76029189; 3654602809; 3873151461; 530742520; 3299628645;
   4096336452; 1126891415; 2878612391; 4237533241; 1700485571; 2399980690;
   4293915773; 2240044497; 1873313359; 4264355552; 2734768916; 1309151649;
   4149444226; 3174756917; 718787259; 3951481745].

Definition state : Type := N * N * N * N.

Definition init : state := (1732584193, 4023233417, 2562383102, 271733878).

(** Little-endian bytes of a 32-bit and of a 64-bit word. *)
Definition le4 (x : N) : list N :=
  [x mod 256; (x / 256) mod 256; (x / 65536) mod 256; (x / 16777216) mod 256].

Definition le8 (x : N) : list N := le4 (w32 x) ++ le4 (w32 (x / 2 ^ 32)).

Definition word_of (bs : list N) : N :=
  nth 0 bs 0 + 256 * nth 1 bs 0 + 65536 * nth 2 bs 0 + 16777216 * nth 3 bs 0.

(** Message padding: a 1 bit, zeros up to 56 mod 64, then the bit
    length on 64 bits. *)
Definition pad (msg : list N) : list N :=
  let len := N.of_nat (length msg) in
  let zeros := (119 - len mod 64) mod 64 in
  msg ++ [128] ++ repeat 0 (N.to_nat zeros) ++ le8 ((8 * len) mod 2 ^ 64).

Fixpoint blocks (sz n : nat) (l : list N) : list (list N) :=
  match n with
  | O => []
  | Datatypes.S n' => firstn sz l :: blocks sz n' (skipn sz l)
  end.

Definition words (chunk : list N) : list N :=
  map word_of (blocks 4 16 chunk).

Definition step (M : list N) (st : state) (i : nat) : state :=
  let '(a, b, c, d) := st in
  let '(f, g) :=
    if (i <? 16)%nat then
      (N.lor (N.land b c) (N.land (not32 b) d), i)
    else if (i <? 32)%nat then
      (N.lor (N.land d b) (N.land (not32 d) c), ((5 * i + 1) mod 16)%nat)
    else if (i <? 48)%nat then
      (N.lxor (N.lxor b c) d, ((3 * i + 5) mod 16)%nat)
    else
      (N.lxor c (N.lor b (not32 d)), ((7 * i) mod 16)%nat) in
  let f' := add32 (add32 (add32 f a) (nth i K 0)) (nth g M 0) in
  (d, add32 b (rotl32 f' (nth i S 0)), b, c).

Definition process (st : state) (chunk : list N) : state :=
  let '(a0, b0, c0, d0) := st in
  let '(a, b, c, d) := fold_left (step (words chunk)) (seq 0 64) st in
  (add32 a0 a, add32 b0 b, add32 c0 c, add32 d0 d).

Definition digest (msg : list N) : list N :=
  let p := pad msg in
  let '(a, b, c, d) := fold_left process (blocks 64 (length p / 64) p) init in
  le4 a ++ le4 b ++ le4 c ++ le4 d.

Definition hexdigit (n : N) : N := if n <? 10 then 48 + n else 87 + n.

Definition hexbyte (b : N) : pystr := [hexdigit ((b / 16) mod 16); hexdigit (b mod 16)].

(** [hashlib.md5(data).hexdigest()] *)
Definition hexdigest (msg : list N) : pystr := flat_map hexbyte (digest msg).

End MD5.

(* ================================================================== *)
(** * job_scraper.py *)
(* ================================================================== *)

Module JobScraper.

Section WithLower.

(** [str.lower]: the Unicode case mapping of the Python runtime. *)
Variable lower : pystr -> pystr.

(** [_generate_job_id(title, company, unique_str)]:
    [hashlib.md5(f"{title}_{company}_{unique_str}".lower().encode()).hexdigest()[:16]] *)
Definition _generate_job_id (title company unique_str : pystr) : result pystr :=
  let unique_string := lower (title ++ py "_" ++ company ++ py "_" ++ unique_str) in
  (bs <- encode unique_string ;;
   Ok (firstn 16 (MD5.hexdigest bs)))%py.

(** What the selectors of [_extract_job_from_card] found in a job
    card: the text and [href] of the title link (empty when no
    selector matched), the candidate company texts in selector order,
    and the description text. *)
Record card := Card {
  card_title : pystr;
  card_href : pystr;
  card_companies : list pystr;
  card_description : pystr
}.

Record job := Job {
  job_id : pystr;
  title : pystr;
  company : pystr;
  description : pystr;
  location : pystr;
  job_url : pystr;
  scraped_timestamp : Z
}.

Definition base_url : pystr := py "https://wuzzuf.net".

(** The first company text that is non-empty and shorter than 100
    characters, else the default. *)
Fixpoint pick_company (cands : list pystr) : pystr :=
  match cands with
  | [] => py "Unknown Company"
  | c :: rest =>
      match c with
      | [] => pick_company rest
      | _ :: _ => if (length c <? 100)%nat then c else pick_company rest
      end
  end.

(** [_extract_job_from_card(card)] after the selectors have run;
    [now_ms] is [int(time.time() * 1000)].  [None] is the source's
    [return None]. *)
Definition _extract_job_from_card (cd : card) (now_ms : Z) : option job :=
  match card_title cd with
  | [] => None
  | _ :: _ =>
      let title := card_title cd in
      let job_url :=
        match card_href cd with
        | [] => []
        | _ :: _ => if startswith (py "/") (card_href cd)
                    then base_url ++ card_href cd else card_href cd
        end in
      let company := pick_company (card_companies cd) in
      let unique_str := match job_url with [] => title | _ :: _ => job_url end in
      match _generate_job_id title company unique_str with
      | Raise _ => None
      | Ok id =>
          Some (Job id title company (card_description cd) (py "Egypt") job_url now_ms)
      end
  end.

End WithLower.

End JobScraper.

(* ================================================================== *)
(** * embedding_service.py *)
(* ================================================================== *)

Module EmbeddingService.

(** What the adapter does to the outside world, in order. *)
Inductive event : Type :=
| Invoke (model_id : pystr) (request_body : json)
| Sleep (seconds : N).

Definition trace := list event.

(** Computations that call Bedrock: they extend the trace and either
    return or raise. *)
Definition M (A : Type) : Type := stm trace A.

Definition is_invoke (ev : event) : bool :=
  match ev with Invoke _ _ => true | Sleep _ => false end.

Definition invocations (tr : trace) : list event := filter is_invoke tr.

Definition sleeps (tr : trace) : list N :=
  flat_map (fun ev => match ev with Sleep s => [s] | Invoke _ _ => [] end) tr.

(** The model ids, in order of preference. *)
Definition model_ids : list pystr :=
  [py "amazon.titan-embed-text-v2:0"; py "amazon.titan-embed-text-v1"].

Record service := Service {
  current_model : pystr;
  embedding_dims : nat
}.

Section WithBedrock.

(** The remote model.  [bedrock model_id request_body n] is the
    outcome of the [n]-th invocation (counted from 0): an exception
    raised by [invoke_model] or by the parsing of the response, or
    the value of [response_body.get('embedding')] ([JNull] when the
    key is absent). *)
Variable bedrock : pystr -> json -> nat -> result json.

Definition invoke_model (model_id : pystr) (request_body : json) : M json :=
  fun tr =>
    (bedrock model_id request_body (length (invocations tr)),
     tr ++ [Invoke model_id request_body]).

Definition sleep (seconds : N) : M unit :=
  fun tr => (Ok tt, tr ++ [Sleep seconds]).

Definition request_body_for (model_id text : pystr) : json :=
  if contains (py "v2") model_id then
    JDict [(py "inputText", JStr text);
           (py "dimensions", JInt 1024);
           (py "normalize", JBool true)]
  else
    JDict [(py "inputText", JStr text)].

(** The validation of a raw [embedding] inside [_call_bedrock]. *)
Definition validate_raw (embedding : json) : result json :=
  match embedding with
  | JNull => Raise (ValueError (py "Bedrock returned None embedding"))
  | JList l =>
      match l with
      | [] => Raise (ValueError (py "Embedding is empty list"))
      | _ :: _ =>
          let none_indices := filter is_none l in
          match none_indices with
          | _ :: _ =>
              Raise (ValueError (py "Embedding contains "
                                   ++ str_of_nat (length none_indices)
                                   ++ py " None values"))
          | [] =>
              let non_numeric := filter (fun v => negb (is_int_or_float v)) l in
              match non_numeric with
              | _ :: _ =>
                  Raise (ValueError (py "Embedding contains "
                                       ++ str_of_nat (length non_numeric)
                                       ++ py " non-numeric values"))
              | [] => Ok embedding
              end
          end
      end
  | _ => Raise (ValueError (py "Embedding is not a list: " ++ type_repr embedding))
  end.

(** The body of the [try] of one iteration of [_call_bedrock]. *)
Definition attempt_once (model_id text : pystr) : M json :=
  mbind (invoke_model model_id (request_body_for model_id text))
        (fun embedding tr => (validate_raw embedding, tr)).

(** [for attempt in range(max_retries)], from iteration [attempt] on,
    with [remaining] iterations left.  Falling off the loop returns
    [None]. *)
Fixpoint call_loop (model_id text : pystr) (max_retries remaining attempt : nat)
  : M json :=
  match remaining with
  | O => ret JNull
  | S remaining' =>
      mtry (attempt_once model_id text)
           (fun e =>
              if (attempt <? max_retries - 1)%nat then
                mbind (sleep (2 ^ N.of_nat attempt))
                      (fun _ => call_loop model_id text max_retries
                                  remaining' (S attempt))
              else raise e)
  end.

(** [_call_bedrock(model_id, text, max_retries=3)] *)
Definition _call_bedrock (model_id text : pystr) (max_retries : nat) : M json :=
  call_loop model_id text max_retries max_retries 0.

(** The text [generate_embedding] submits, when it submits one. *)
Definition prepare_text (text : pystr) : pystr :=
  let text := strip text in
  if (8000 <? len text)%N
  then firstn (N.to_nat 8000) text ++ py "..."
  else text.

(** The final validation of [generate_embedding]. *)
Definition final_validation (embedding : json) : result json :=
  if negb (truthy embedding) then
    Raise (ValueError (py "Generated embedding is falsy"))
  else
    match embedding with
    | JList l =>
        match l with
        | [] => Raise (ValueError (py "Generated embedding is empty"))
        | _ :: _ =>
            if existsb is_none l then
              Raise (ValueError (py "Generated embedding contains "
                                   ++ str_of_nat (length (filter is_none l))
                                   ++ py " None values"))
            else
              match filter (fun v => negb (is_int_or_float v)) l with
              | _ :: _ =>
                  Raise (ValueError (py "Generated embedding contains non-numeric values"))
              | [] => Ok embedding
              end
        end
    | _ => Raise (ValueError (py "Generated embedding is not a list: "
                                ++ type_repr embedding))
    end.

(** [generate_embedding(text)] *)
Definition generate_embedding (self : service) (text : pystr) : M json :=
  if negb (truthy (JStr text)) || (len (strip text) <? 5)%N then
    raise (ValueError (py "Text too short for embedding generation"))
  else
    mbind (_call_bedrock (current_model self) (prepare_text text) 3)
          (fun embedding tr => (final_validation embedding, tr)).

(** [_initialize_model()]: the loop over [model_ids]. *)
Fixpoint initialize_from (ids : list pystr) : M service :=
  match ids with
  | [] => raise (Exn "Exception" (py "No Titan embedding model available"))
  | model_id :: rest =>
      fun tr =>
        match _call_bedrock model_id (py "test") 3 tr with
        | (Ok test_response, tr') =>
            if truthy test_response then
              (Ok (Service model_id
                     (match test_response with
                      | JList l => length l
                      | _ => 0
                      end)), tr')
            else initialize_from rest tr'
        | (Raise _, tr') => initialize_from rest tr'
        end
  end.

Definition _initialize_model : M service := initialize_from model_ids.

End WithBedrock.

(** The text of an invocation: [request_body['inputText']]. *)
Definition submitted_text (ev : event) : option pystr :=
  match ev with
  | Invoke _ (JDict ((_, JStr text) :: _)) => Some text
  | _ => None
  end.

Definition invoked_model (ev : event) : option pystr :=
  match ev with
  | Invoke model_id _ => Some model_id
  | Sleep _ => None
  end.

End EmbeddingService.


(* ================================================================== *)
(** * opensearch_manager.py *)
(* ================================================================== *)

Module OpenSearch.

(** ** The query DSL the program uses *)

#[warnings="-register-all"]
Inductive query : Type :=
| MatchAll
| Exists (field : pystr)
| Term (field : pystr) (value : json)
| Knn (field : pystr) (vector : json) (k : nat)
| Bool (must filter must_not : list query).

(** A sort clause: the field and whether the order is descending. *)
Definition sort_clause := (pystr * bool)%type.

(** The body of a search: [size], [query], [_source.exclude], [sort]. *)
Record search_body := SearchBody {
  sb_size : nat;
  sb_query : query;
  sb_source_exclude : list pystr;
  sb_sort : list sort_clause
}.

(** One element of [response['hits']['hits']]. *)
Record hit := Hit {
  _id : pystr;
  _score : Q;
  _source : dict
}.

(** A search response: [took], [hits.total.value], [hits.hits]. *)
Record search_response := SearchResponse {
  took : Z;
  total : Z;
  hits : list hit
}.

(** [client.info()['version']['number']], when present. *)
Record cluster_info := ClusterInfo { version_number : option pystr }.

(** The [result] field of an index response. *)
Inductive index_response : Type := Created | Updated.

(** The OpenSearch client, over the state [S] of the cluster it talks
    to.  Every call may raise. *)
Record client (S : Type) := Client {
  c_info : stm S cluster_info;
  c_exists : pystr -> stm S bool;
  c_index : pystr -> pystr -> dict -> stm S index_response;
  c_search : pystr -> search_body -> stm S search_response
}.

Definition cv_index : pystr := py "cv-index".
Definition job_index : pystr := py "job-index".

Section Manager.

Variable S : Type.
Variable self : client S.

Local Open Scope stm_scope.

(** The loop over [required_fields]. *)
Fixpoint check_required (fields : list pystr) (document : dict) : result unit :=
  match fields with
  | [] => Ok tt
  | field :: rest =>
      if dict_in field document then check_required rest document
      else Raise (ValueError (py "Missing required field: " ++ field))
  end.

(** [not embedding or len(embedding) == 0] *)
Definition embedding_is_empty (embedding : json) : result bool :=
  if negb (truthy embedding) then Ok true
  else bind (json_len embedding) (fun n => Ok (N.eqb n 0)).

(** [index_cv_document(user_id, document)] *)
Definition index_cv_document (user_id : pystr) (document : dict)
  : stm S index_response :=
  _ <- lift (check_required [py "user_id"; py "cv_text"] document) ;;
  document <-
    (if dict_in (py "cv_embedding") document then
       let embedding := dict_get_default (py "cv_embedding") JNull document in
       empty <- lift (embedding_is_empty embedding) ;;
       if (empty : bool) then ret (dict_remove (py "cv_embedding") document)
       else ret document
     else ret document) ;;
  c_index self cv_index user_id document.

(** [get_cv_by_user_id(user_id)]; [None] is the source's [return None]. *)
Definition cv_lookup_body (user_id : json) : search_body :=
  SearchBody 1 (Term (py "user_id") user_id) [py "cv_text"] [].

(** The [try] block of [get_cv_by_user_id].  The log line before the
    [return] evaluates [len(cv_document.get('cv_embedding', []))], which
    raises on a stored value without a length. *)
Definition cv_lookup (user_id : json) : stm S (option dict) :=
  index_exists <- c_exists self cv_index ;;
  if negb index_exists then ret None
  else
    result <- c_search self cv_index (cv_lookup_body user_id) ;;
    match hits result with
    | [] => ret None
    | h :: _ =>
        let cv_document := _source h in
        _ <- lift (json_len
                     (dict_get_default (py "cv_embedding") (JList []) cv_document)) ;;
        ret (Some cv_document)
    end.

Definition get_cv_by_user_id (user_id : json) : S -> option dict * S :=
  fun st =>
    match cv_lookup user_id st with
    | (Ok r, st') => (r, st')
    | (Raise _, st') => (None, st')
    end.

(** The validation of [index_job_document]. *)
Definition embedding_is_valid (embedding : json) : bool :=
  match embedding with
  | JList l =>
      (0 <? len l)%N
      && forallb (fun x => is_int_or_float x && negb (is_none x)) l
  | _ => false
  end.

(** The document [index_job_document] sends first. *)
Definition doc_to_index (document : dict) : dict :=
  if dict_in (py "job_embedding") document then
    let embedding := dict_get_default (py "job_embedding") JNull document in
    if negb (embedding_is_valid embedding) then
      dict_set (py "embedding_status") (JStr (py "invalid_embedding_removed"))
        (dict_remove (py "job_embedding") document)
    else document
  else document.

(** The document of the retry. *)
Definition doc_retry (document : dict) : dict :=
  dict_set (py "embedding_status") (JStr (py "removed_due_to_indexing_error"))
    (dict_remove (py "job_embedding") document).

Definition looks_embedding_related (e : exn) : bool :=
  contains (py "job_embedding") (exn_msg e)
  || contains (py "knn_vector") (exn_msg e)
  || contains (py "null") (exn_msg e).

(** [index_job_document(job_id, document)] *)
Definition index_job_document (job_id : pystr) (document : dict)
  : stm S index_response :=
  mtry (c_index self job_index job_id (doc_to_index document))
       (fun e =>
          if looks_embedding_related e then
            mtry (c_index self job_index job_id (doc_retry document))
                 (fun retry_error => raise retry_error)
          else raise e).

(** The three search bodies of [search_similar_jobs]. *)
Definition knn_search (cv_embedding : json) (size : nat) : search_body :=
  SearchBody size
    (Bool [Knn (py "job_embedding") cv_embedding size]
          [Exists (py "job_embedding")] [])
    [py "job_embedding"] [].

Definition exists_search (size : nat) : search_body :=
  SearchBody size (Bool [Exists (py "job_embedding")] [] [])
    [py "job_embedding"] [].

Definition basic_search (size : nat) : search_body :=
  SearchBody size MatchAll [py "job_embedding"] [].

Definition supports_knn (version : pystr) : bool :=
  startswith (py "2.") version || startswith (py "3.") version.

(** [cluster_info.get('version', {}).get('number', '1.0.0')] *)
Definition reported_version (cluster_info : cluster_info) : pystr :=
  match version_number cluster_info with
  | Some v => v
  | None => py "1.0.0"
  end.

(** The [try] block of [search_similar_jobs]. *)
Definition search_primary (cv_embedding : json) (size : nat)
  : stm S search_response :=
  empty <- lift (embedding_is_empty cv_embedding) ;;
  if (empty : bool) then raise (ValueError (py "CV embedding is empty"))
  else
    cluster_info <- c_info self ;;
    let version := reported_version cluster_info in
    if supports_knn version
    then c_search self job_index (knn_search cv_embedding size)
    else c_search self job_index (exists_search size).

(** [search_similar_jobs(cv_embedding, size=10)] *)
Definition search_similar_jobs (cv_embedding : json) (size : nat)
  : stm S search_response :=
  mtry (search_primary cv_embedding size)
       (fun e =>
          mtry (c_search self job_index (basic_search size))
               (fun fallback_error => raise e)).

End Manager.

End OpenSearch.

(* ================================================================== *)
(** * Lambda_function-1.py: the recommendation handler *)
(* ================================================================== *)

Module Lambda.
Import OpenSearch.

(** The envelope of [create_api_response]; [body] is the value handed
    to [json.dumps]. *)
Record api_response := ApiResponse {
  statusCode : Z;
  headers : dict;
  body : json
}.

Definition create_api_response (status_code : Z) (body : dict) : api_response :=
  ApiResponse status_code
    [(py "Content-Type", JStr (py "application/json"));
     (py "Access-Control-Allow-Origin", JStr (py "*"));
     (py "Access-Control-Allow-Methods", JStr (py "GET, POST, OPTIONS"));
     (py "Access-Control-Allow-Headers", JStr (py "Content-Type, Authorization"))]
    (JDict body).

(** The 4xx and 5xx status codes. *)
Definition is_error_status (code : Z) : bool := (400 <=? code)%Z.

(** [int(x)] on a float: truncation toward zero. *)
Definition int_of_float (x : Q) : Z := Z.quot (Qnum x) (Zpos (Qden x)).

Section Handler.

(** Rounding of a real result to the nearest [float]: the product
    [similarity_score * 10] is a floating-point product. *)
Variable fl : Q -> Q.

Variable S : Type.

(** [min(100, max(0, int(similarity_score * 10)))] *)
Definition match_percentage (similarity_score : Q) : Z :=
  Z.min 100 (Z.max 0 (int_of_float (fl (similarity_score * 10)%Q))).

(** The display record of one hit. *)
Definition recommendation (h : hit) : json :=
  let job_data := _source h in
  let similarity_score := _score h in
  JDict
    [(py "job_id", dict_get_default (py "job_id") (JStr (_id h)) job_data);
     (py "title",
      dict_get_default (py "title") (JStr (py "Job Title Not Available")) job_data);
     (py "company",
      dict_get_default (py "company") (JStr (py "Company Name Not Available")) job_data);
     (py "description",
      dict_get_default (py "description") (JStr (py "No description available")) job_data);
     (py "location",
      dict_get_default (py "location") (JStr (py "Location not specified")) job_data);
     (py "job_url", dict_get_default (py "job_url") (JStr []) job_data);
     (py "skills_required", dict_get_default (py "skills_required") (JList []) job_data);
     (py "experience_level",
      dict_get_default (py "experience_level") (JStr (py "Not specified")) job_data);
     (py "salary_range",
      dict_get_default (py "salary_range") (JStr (py "Not specified")) job_data);
     (py "match_percentage", JInt (match_percentage similarity_score));
     (py "similarity_score", JFloat similarity_score);
     (py "scraped_date", dict_get_default (py "scraped_date") JNull job_data)].

Definition cv_not_found (user_id : json) : api_response :=
  create_api_response 404
    [(py "error", JStr (py "CV not found for this user. Please upload your CV first."));
     (py "user_id", user_id)].

Definition embedding_not_available (user_id : json) : api_response :=
  create_api_response 400
    [(py "error", JStr (py "CV embedding not available. Please re-upload your CV."));
     (py "user_id", user_id)].

Definition no_matching_jobs (user_id : json) : api_response :=
  create_api_response 404
    [(py "message", JStr (py "No matching jobs found at the moment."));
     (py "user_id", user_id);
     (py "recommendations", JList [])].

Definition recommendations_found
    (user_id : json) (cv_result : dict) (similar_jobs : search_response)
  : api_response :=
  let recommendations := map recommendation (hits similar_jobs) in
  create_api_response 200
    [(py "user_id", user_id);
     (py "total_recommendations", JInt (Z.of_nat (length recommendations)));
     (py "user_profile",
      JDict [(py "skills_extracted",
              dict_get_default (py "skills_extracted") (JList []) cv_result);
             (py "experience_years",
              dict_get_default (py "experience_years") (JInt 0) cv_result);
             (py "job_title",
              dict_get_default (py "job_title") (JStr (py "Not specified")) cv_result)]);
     (py "recommendations", JList recommendations);
     (py "search_metadata",
      JDict [(py "total_jobs_in_database", JInt (total similar_jobs));
             (py "search_took_ms", JInt (took similar_jobs))])].

Definition failed (e : exn) : api_response :=
  create_api_response 500
    [(py "error", JStr (py "Failed to get recommendations: " ++ exn_msg e))].

(** [handle_recommendation_request(body, context)].  [manager] is the
    outcome of the constructor [OpenSearchManager()]. *)
Definition handle_recommendation_request
    (manager : result (client S)) (body : dict) : S -> api_response * S :=
  fun st =>
    let user_id := dict_get_default (py "user_id") JNull body in
    if negb (truthy user_id) then
      (create_api_response 400 [(py "error", JStr (py "user_id is required"))], st)
    else
      match manager with
      | Raise e => (failed e, st)
      | Ok opensearch_manager =>
          let '(cv_result, st1) := get_cv_by_user_id opensearch_manager user_id st in
          match cv_result with
          | None => (cv_not_found user_id, st1)
          | Some cv_result =>
              if negb (truthy (JDict cv_result)) then (cv_not_found user_id, st1)
              else
                let cv_embedding :=
                  dict_get_default (py "cv_embedding") JNull cv_result in
                if negb (truthy cv_embedding) then
                  (embedding_not_available user_id, st1)
                else
                  match search_similar_jobs opensearch_manager cv_embedding 10 st1 with
                  | (Raise e, st2) => (failed e, st2)
                  | (Ok similar_jobs, st2) =>
                      match hits similar_jobs with
                      | [] => (no_matching_jobs user_id, st2)
                      | _ :: _ =>
                          (recommendations_found user_id cv_result similar_jobs, st2)
                      end
                  end
          end
      end.

End Handler.

End Lambda.

(* ================================================================== *)
(** * A reference cluster *)
(* ================================================================== *)

(** An executable stand-in for the OpenSearch cluster, for the fragment
    of its behaviour the program relies on: upsert by id, the query
    clauses of [OpenSearch.query], ranking by score with ties in index
    order, [size], [sort] and source filtering. *)
Module Engine.
Import OpenSearch.

Record cluster := Cluster {
  reachable : bool;
  version : option pystr;
  knn_enabled : bool;
  strict_vectors : bool;
  indices : list (pystr * list (pystr * dict))
}.

Definition connection_error : exn :=
  Exn "ConnectionError" (py "Connection refused").

Fixpoint index_docs (name : pystr) (ix : list (pystr * list (pystr * dict)))
  : option (list (pystr * dict)) :=
  match ix with
  | [] => None
  | (n, docs) :: rest => if str_eqb name n then Some docs else index_docs name rest
  end.

Fixpoint set_index (name : pystr) (docs : list (pystr * dict))
    (ix : list (pystr * list (pystr * dict))) : list (pystr * list (pystr * dict)) :=
  match ix with
  | [] => [(name, docs)]
  | (n, old) :: rest =>
      if str_eqb name n then (n, docs) :: rest else (n, old) :: set_index name docs rest
  end.

Fixpoint has_id (id : pystr) (docs : list (pystr * dict)) : bool :=
  match docs with
  | [] => false
  | (i, _) :: rest => str_eqb id i || has_id id rest
  end.

Fixpoint upsert (id : pystr) (d : dict) (docs : list (pystr * dict))
  : list (pystr * dict) :=
  match docs with
  | [] => [(id, d)]
  | (i, old) :: rest =>
      if str_eqb id i then (i, d) :: rest else (i, old) :: upsert id d rest
  end.

(** A value a [knn_vector] field accepts. *)
Definition is_vector (v : json) : bool :=
  match v with
  | JList (x :: l) =>
      forallb (fun y => match y with JInt _ | JFloat _ => true | _ => false end) (x :: l)
  | _ => false
  end.

Definition vector_field (index : pystr) : pystr :=
  if str_eqb index cv_index then py "cv_embedding" else py "job_embedding".

Definition mapping_error (field : pystr) : exn :=
  Exn "RequestError"
    (py "mapper_parsing_exception: failed to parse field [" ++ field
       ++ py "] of type [knn_vector]").

(** The [exists] query: the field has a non-null value. *)
Definition has_value (field : pystr) (d : dict) : bool :=
  match dict_get field d with
  | None | Some JNull => false
  | Some (JList l) => existsb (fun v => negb (is_none v)) l
  | Some _ => true
  end.

Definition scalar_eqb (a b : json) : bool :=
  match a, b with
  | JStr x, JStr y => str_eqb x y
  | JInt x, JInt y => Z.eqb x y
  | JBool x, JBool y => Bool.eqb x y
  | JFloat x, JFloat y => Qeq_bool x y
  | _, _ => false
  end.

Fixpoint uses_knn (q : query) : bool :=
  match q with
  | Knn _ _ _ => true
  | Bool must filter must_not =>
      existsb uses_knn must || existsb uses_knn filter || existsb uses_knn must_not
  | _ => false
  end.

Definition number (v : json) : Q :=
  match v with
  | JInt z => inject_Z z
  | JFloat q => q
  | _ => 0%Q
  end.

Fixpoint insert_by {A} (before : A -> A -> bool) (x : A) (l : list A) : list A :=
  match l with
  | [] => [x]
  | y :: l' => if before x y then x :: l else y :: insert_by before x l'
  end.

(** Stable insertion sort. *)
Definition sort_by {A} (before : A -> A -> bool) (l : list A) : list A :=
  fold_right (insert_by before) [] l.

Section Scoring.

(** The similarity of the [knn] query between the query vector and
    the value of the vector field of a document, and the documents
    the [knn] clause considers. *)
Variable similarity : json -> option json -> Q.
Variable knn_candidate : pystr -> json -> dict -> bool.

Fixpoint matches (q : query) (d : dict) : bool :=
  match q with
  | MatchAll => true
  | Exists field => has_value field d
  | Term field value =>
      match dict_get field d with
      | Some v => scalar_eqb value v
      | None => false
      end
  | Knn field vector _ => knn_candidate field vector d
  | Bool must filter must_not =>
      forallb (fun c => matches c d) must
      && forallb (fun c => matches c d) filter
      && negb (existsb (fun c => matches c d) must_not)
  end.

Fixpoint score (q : query) (d : dict) : Q :=
  match q with
  | Knn field vector _ => similarity vector (dict_get field d)
  | Bool must _ _ => fold_right (fun c acc => (score c d + acc)%Q) 0%Q must
  | _ => 1%Q
  end.

(** A matching document with its score. *)
Definition scored := (pystr * Q * dict)%type.

Definition sort_key (field : pystr) (x : scored) : Q :=
  let '(_, sc, d) := x in
  if str_eqb field (py "_score") then sc
  else number (dict_get_default field JNull d).

Fixpoint before (clauses : list sort_clause) (x y : scored) : bool :=
  match clauses with
  | [] => true
  | (field, descending) :: rest =>
      let a := sort_key field x in
      let b := sort_key field y in
      if Qeq_bool a b then before rest x y
      else if (descending : bool) then Qle_bool b a else Qle_bool a b
  end.

Definition ranking (sort : list sort_clause) : list sort_clause :=
  match sort with
  | [] => [(py "_score", true)]
  | _ :: _ => sort
  end.

Definition project (exclude : list pystr) (d : dict) : dict :=
  fold_right dict_remove d exclude.

Definition run_search (body : search_body) (docs : list (pystr * dict))
  : search_response :=
  let found :=
    map (fun kd => (fst kd, score (sb_query body) (snd kd), snd kd))
        (filter (fun kd => matches (sb_query body) (snd kd)) docs) in
  let ranked := sort_by (before (ranking (sb_sort body))) found in
  SearchResponse 1 (Z.of_nat (length found))
    (map (fun x : scored =>
            let '(id, sc, d) := x in
            Hit id sc (project (sb_source_exclude body) d))
         (firstn (sb_size body) ranked)).

Definition e_info : stm cluster cluster_info :=
  fun st =>
    if reachable st then (Ok (ClusterInfo (version st)), st)
    else (Raise connection_error, st).

Definition e_exists (index : pystr) : stm cluster bool :=
  fun st =>
    if reachable st then
      (Ok (match index_docs index (indices st) with Some _ => true | None => false end), st)
    else (Raise connection_error, st).

Definition e_index (index id : pystr) (d : dict) : stm cluster index_response :=
  fun st =>
    if negb (reachable st) then (Raise connection_error, st)
    else if strict_vectors st
            && dict_in (vector_field index) d
            && negb (is_vector (dict_get_default (vector_field index) JNull d))
    then (Raise (mapping_error (vector_field index)), st)
    else
      let docs := match index_docs index (indices st) with
                  | Some docs => docs
                  | None => []
                  end in
      (Ok (if has_id id docs then Updated else Created),
       Cluster (reachable st) (version st) (knn_enabled st) (strict_vectors st)
         (set_index index (upsert id d docs) (indices st))).

Definition e_search (index : pystr) (body : search_body)
  : stm cluster search_response :=
  fun st =>
    if negb (reachable st) then (Raise connection_error, st)
    else
      match index_docs index (indices st) with
      | None =>
          (Raise (Exn "NotFoundError"
                    (py "index_not_found_exception: no such index [" ++ index ++ py "]")),
           st)
      | Some docs =>
          if uses_knn (sb_query body) && negb (knn_enabled st) then
            (Raise (Exn "RequestError"
                      (py "parsing_exception: unknown query [knn]")), st)
          else (Ok (run_search body docs), st)
      end.

Definition engine : client cluster :=
  Client e_info e_exists e_index e_search.

End Scoring.

(** The score of the [l2] space, [1 / (1 + d^2)], on well-formed vectors. *)
Fixpoint l2_squared (a b : list json) : Q :=
  match a, b with
  | x :: a', y :: b' =>
      ((number x - number y) * (number x - number y) + l2_squared a' b')%Q
  | _, _ => 0%Q
  end.

Definition l2_similarity (vector : json) (field_value : option json) : Q :=
  match vector, field_value with
  | JList a, Some (JList b) => (1 / (1 + l2_squared a b))%Q
  | _, _ => 0%Q
  end.

(** A cluster whose [knn] clause considers the documents that carry a
    vector. *)
Definition standard : client cluster :=
  engine l2_similarity (fun field _ d => is_vector (dict_get_default field JNull d)).

End Engine.

(* ================================================================== *)
(** * Concrete worlds used to run the model *)
(* ================================================================== *)

Module Scenarios.
Import EmbeddingService.

Definition primary : pystr := nth 0 model_ids [].
Definition secondary : pystr := nth 1 model_ids [].

(** The primary model times out on every call; the secondary answers. *)
Definition primary_down (model_id : pystr) (_ : json) (_ : nat) : result json :=
  if str_eqb model_id primary
  then Raise (Exn "ReadTimeoutError" (py "Read timeout on endpoint URL"))
  else Ok (JList [JFloat (1 # 2); JFloat (1 # 4)]).

(** Every call answers with a two-dimensional vector. *)
Definition always_up (_ : pystr) (_ : json) (_ : nat) : result json :=
  Ok (JList [JFloat (1 # 2); JFloat (1 # 4)]).

Definition names_model (model_id : pystr) (ev : event) : bool :=
  match invoked_model ev with
  | Some m => str_eqb m model_id
  | None => false
  end.

(** Floating-point rounding taken to be exact. *)
Definition exact (x : Q) : Q := x.

Definition cv_u1 : dict :=
  [(py "user_id", JStr (py "u1"));
   (py "cv_text", JStr (py "Senior Software Engineer with 6 years experience"));
   (py "cv_embedding", JList [JFloat 1; JFloat 0]);
   (py "job_title", JStr (py "Senior Software Engineer"))].

(** A candidate stored without a vector. *)
Definition cv_u2 : dict :=
  [(py "user_id", JStr (py "u2"));
   (py "cv_text", JStr (py "Data analyst"))].

(** A document whose vector has a null entry. *)
Definition cv_bad : dict :=
  [(py "user_id", JStr (py "u3"));
   (py "cv_text", JStr (py "Data analyst with SQL"));
   (py "cv_embedding", JList [JNull; JFloat 1])].

Definition job_old : dict :=
  [(py "job_id", JStr (py "j-old"));
   (py "title", JStr (py "Backend Engineer"));
   (py "job_embedding", JList [JFloat 1; JFloat 0]);
   (py "scraped_date", JInt 1000)].

(** The most recently scraped job; its vector could not be generated. *)
Definition job_new : dict :=
  [(py "job_id", JStr (py "j-new"));
   (py "title", JStr (py "Data Engineer"));
   (py "embedding_status", JStr (py "skipped_short_text"));
   (py "scraped_date", JInt 2000)].

Definition cluster_of (version : pystr) (jobs : list (pystr * dict)) : Engine.cluster :=
  Engine.Cluster true (Some version) true false
    [(OpenSearch.cv_index, [(py "u1", cv_u1); (py "u2", cv_u2)]);
     (OpenSearch.job_index, jobs)].

Definition down : Engine.cluster :=
  Engine.Cluster false (Some (py "2.11.0")) true false [].

Definition request (user : string) : dict := [(py "user_id", JStr (py user))].

End Scenarios.


(* ================================================================== *)
(** * utils.py *)
(* ================================================================== *)

Module Utils.

(** [validate_embedding(embedding)] *)
Definition validate_embedding (embedding : json) : bool :=
  if negb (truthy embedding) then false
  else
    match embedding with
    | JList l =>
        if (len l =? 0)%N then false
        else if negb (forallb is_int_or_float l) then false
        else true
    | _ => false
    end.

End Utils.


(* ================================================================== *)
(** * The handler on any parsed body *)
(* ================================================================== *)

Module Gateway.
Import OpenSearch Lambda.

(** [handle_recommendation_request(body, context)] for whatever value the
    request body was parsed to: on a value that is not a [dict],
    [body.get] raises [AttributeError] inside the handler's [try]. *)
Definition handle_recommendation_request_json
    (fl : Q -> Q) (S : Type) (manager : result (client S)) (body : json)
  : S -> api_response * S :=
  match body with
  | JDict d => handle_recommendation_request fl manager d
  | _ =>
      fun st =>
        (failed (Exn "AttributeError"
                   (py "'" ++ type_name body ++ py "' object has no attribute 'get'")),
         st)
  end.

End Gateway.


(* ================================================================== *)
(** * Properties *)
(* ================================================================== *)

Unset Implicit Arguments.

Example md5_empty :
  MD5.hexdigest [] = py "d41d8cd98f00b204e9800998ecf8427e".
Proof. vm_compute. reflexivity. Qed.

Example md5_abc :
  bind (encode (py "abc")) (fun b => Ok (MD5.hexdigest b))
  = Ok (py "900150983cd24fb0d6963f7d28e17f72").
Proof. vm_compute. reflexivity. Qed.

Example md5_two_blocks :
  MD5.hexdigest (repeat 97%N 70) = py "0f5c6c4e740bfcc08c3c26ccb2673d46".
Proof. vm_compute. reflexivity. Qed.

Example job_id_example :
  JobScraper._generate_job_id ascii_lower
    (py "Software Engineer") (py "ACME") (py "https://wuzzuf.net/jobs/p/1")
  = Ok (py "5fe4422d4e189e02").
Proof. vm_compute. reflexivity. Qed.

(** ** Job identifiers *)

(** Turn boolean comparisons on [N] in the hypotheses into propositions. *)
Ltac N_bools :=
  repeat match goal with
    | H : (_ && _) = true |- _ => apply andb_true_iff in H; destruct H
    | H : (_ || _) = true |- _ => apply orb_true_iff in H; destruct H
    | H : (_ && _) = false |- _ => apply andb_false_iff in H; destruct H
    | H : (_ || _) = false |- _ => apply orb_false_iff in H; destruct H
    | H : (_ <? _)%N = true |- _ => apply N.ltb_lt in H
    | H : (_ <? _)%N = false |- _ => apply N.ltb_ge in H
    | H : (_ <=? _)%N = true |- _ => apply N.leb_le in H
    | H : (_ <=? _)%N = false |- _ => apply N.leb_gt in H
    | H : (_ =? _)%N = true |- _ => apply N.eqb_eq in H
    | H : (_ =? _)%N = false |- _ => apply N.eqb_neq in H
    end.

Lemma utf8_char_scalar c : is_scalar c = true -> exists bs, utf8_char c = Some bs.
Proof.
  unfold is_scalar, utf8_char. intros H.
  destruct (c <? 128)%N eqn:E1; [eauto|].
  destruct (c <? 2048)%N eqn:E2; [eauto|].
  destruct (c <? 65536)%N eqn:E3.
  - destruct ((55296 <=? c) && (c <=? 57343))%N eqn:E; [|eauto].
    exfalso. N_bools; lia.
  - destruct (c <? 1114112)%N eqn:E4; [eauto|].
    exfalso. N_bools; lia.
Qed.

Lemma encode_scalar s : forallb is_scalar s = true -> exists bs, encode s = Ok bs.
Proof.
  induction s as [|c s IH]; simpl; intros H; [eauto|].
  apply andb_true_iff in H as [Hc Hs].
  destruct (utf8_char_scalar c Hc) as [bs ->].
  destruct (IH Hs) as [rest ->]. simpl. eauto.
Qed.

Lemma digest_length msg : length (MD5.digest msg) = 16%nat.
Proof.
  unfold MD5.digest.
  destruct (fold_left _ _ _) as [[[a b] c] d]. reflexivity.
Qed.

Lemma hexdigit_is_hex n : (n < 16)%N -> is_hexdigit (MD5.hexdigit n) = true.
Proof.
  intros H. unfold MD5.hexdigit, is_hexdigit.
  destruct (n <? 10)%N eqn:E.
  - apply N.ltb_lt in E. apply orb_true_iff. left.
    apply andb_true_iff. split; apply N.leb_le; lia.
  - apply N.ltb_ge in E. apply orb_true_iff. right.
    apply andb_true_iff. split; apply N.leb_le; lia.
Qed.

Lemma hexdigest_flat (bs : list N) :
  length (flat_map MD5.hexbyte bs) = (2 * length bs)%nat
  /\ forallb is_hexdigit (flat_map MD5.hexbyte bs) = true.
Proof.
  induction bs as [|b bs [IHl IHh]]; [split; reflexivity|].
  split.
  - simpl. rewrite IHl. lia.
  - change (flat_map MD5.hexbyte (b :: bs))
      with (MD5.hexdigit ((b / 16) mod 16) :: MD5.hexdigit (b mod 16)
              :: flat_map MD5.hexbyte bs).
    cbn [forallb]. rewrite IHh.
    rewrite !hexdigit_is_hex; [reflexivity| |]; apply N.mod_upper_bound; discriminate.
Qed.

Lemma hexdigest_length msg : length (MD5.hexdigest msg) = 32%nat.
Proof.
  unfold MD5.hexdigest.
  rewrite (proj1 (hexdigest_flat _)), digest_length. reflexivity.
Qed.

Lemma forallb_firstn {A} (p : A -> bool) n (l : list A) :
  forallb p l = true -> forallb p (firstn n l) = true.
Proof.
  revert l. induction n as [|n IH]; intros [|x l]; simpl; auto.
  intros H. apply andb_true_iff in H as [-> Hl]. simpl. auto.
Qed.

Lemma generate_job_id_shape lower t c u id :
  JobScraper._generate_job_id lower t c u = Ok id ->
  length id = 16%nat /\ forallb is_hexdigit id = true.
Proof.
  unfold JobScraper._generate_job_id.
  destruct (encode _) as [bs|e]; cbn [bind]; [|discriminate].
  intros H.
  assert (id = firstn 16 (MD5.hexdigest bs)) as -> by congruence.
  split.
  - rewrite length_firstn, hexdigest_length. reflexivity.
  - apply forallb_firstn. apply (proj2 (hexdigest_flat _)).
Qed.

Lemma ascii_lower_scalar s :
  forallb is_scalar s = true -> forallb is_scalar (ascii_lower s) = true.
Proof.
  induction s as [|c s IH]; simpl; [reflexivity|].
  intros H. apply andb_true_iff in H as [Hc Hs]. rewrite (IH Hs), andb_true_r.
  destruct ((65 <=? c) && (c <=? 90))%N eqn:E; [|exact Hc].
  apply andb_true_iff in E as [_ E]. apply N.leb_le in E.
  unfold is_scalar. apply orb_true_iff. left. apply N.ltb_lt. lia.
Qed.

(** C7.  The job id generator is a function of (title, company,
    discriminator) alone.  Whenever the lower-cased key is encodable it
    returns an identifier of exactly 16 lower-case hexadecimal digits, and
    the identifier [_extract_job_from_card] assigns to a card does not
    depend on the card's description nor on the time of the scrape: two
    listings that differ only in their description get the same job id. *)
Theorem job_id_deterministic_fixed_length
    (lower : pystr -> pystr) (t c u : pystr) :
  (forallb is_scalar (lower (t ++ py "_" ++ c ++ py "_" ++ u)) = true ->
   exists id, JobScraper._generate_job_id lower t c u = Ok id
              /\ length id = 16%nat /\ forallb is_hexdigit id = true)
  /\ (forall href companies d1 d2 now1 now2,
        option_map JobScraper.job_id
          (JobScraper._extract_job_from_card lower
             (JobScraper.Card t href companies d1) now1)
        = option_map JobScraper.job_id
            (JobScraper._extract_job_from_card lower
               (JobScraper.Card t href companies d2) now2)).
Proof.
  split.
  - intros H. unfold JobScraper._generate_job_id.
    destruct (encode_scalar _ H) as [bs E].
    eexists. split.
    + rewrite E. reflexivity.
    + split.
      * rewrite length_firstn, hexdigest_length. reflexivity.
      * apply forallb_firstn. apply (proj2 (hexdigest_flat _)).
  - intros href companies d1 d2 now1 now2.
    unfold JobScraper._extract_job_from_card. simpl.
    destruct t as [|x t']; [reflexivity|].
    destruct (JobScraper._generate_job_id _ _ _ _); reflexivity.
Qed.

Lemma job_id_deterministic_fixed_length_witness :
  exists id,
    JobScraper._generate_job_id ascii_lower
      (py "Software Engineer") (py "ACME") (py "/jobs/p/1") = Ok id
    /\ length id = 16%nat /\ forallb is_hexdigit id = true.
Proof.
  apply (proj1 (job_id_deterministic_fixed_length ascii_lower
                  (py "Software Engineer") (py "ACME") (py "/jobs/p/1"))).
  vm_compute. reflexivity.
Defined.

(** ** The embedding adapter *)

Import EmbeddingService.

Lemma filter_nil_existsb {A} (p : A -> bool) (l : list A) :
  filter p l = [] -> existsb p l = false.
Proof.
  induction l as [|x l IH]; simpl; [reflexivity|].
  destruct (p x); [discriminate|]. exact IH.
Qed.

(** What [_call_bedrock] accepts passes the final validation of
    [generate_embedding] unchanged. *)
Lemma validate_raw_final v v' :
  validate_raw v = Ok v' -> v' = v /\ final_validation v = Ok v.
Proof.
  destruct v as [| | | | |l|]; try discriminate.
  unfold validate_raw, final_validation.
  destruct l as [|x l]; [discriminate|].
  destruct (filter is_none (x :: l)) eqn:En; [|discriminate].
  destruct (filter (fun v => negb (is_int_or_float v)) (x :: l)) eqn:Ef; [|discriminate].
  intros [= <-]. split; [reflexivity|].
  rewrite (filter_nil_existsb _ _ En). reflexivity.
Qed.

(** One attempt: one invocation appended to the trace, then the
    validation of what came back. *)
Lemma attempt_once_spec bedrock model_id text tr :
  attempt_once bedrock model_id text tr
  = (bind (bedrock model_id (request_body_for model_id text)
             (length (invocations tr)))
          validate_raw,
     tr ++ [Invoke model_id (request_body_for model_id text)]).
Proof.
  unfold attempt_once, mbind, invoke_model.
  destruct (bedrock _ _ _); reflexivity.
Qed.

(** One iteration of the retry loop. *)
Lemma call_loop_step bedrock m text max_retries remaining attempt tr :
  call_loop bedrock m text max_retries (S remaining) attempt tr
  = match bind (bedrock m (request_body_for m text) (length (invocations tr)))
               validate_raw with
    | Ok emb => (Ok emb, tr ++ [Invoke m (request_body_for m text)])
    | Raise e =>
        if (attempt <? max_retries - 1)%nat then
          call_loop bedrock m text max_retries remaining (S attempt)
            ((tr ++ [Invoke m (request_body_for m text)])
               ++ [Sleep (2 ^ N.of_nat attempt)])
        else (Raise e, tr ++ [Invoke m (request_body_for m text)])
    end.
Proof.
  cbn [call_loop]. unfold mtry. rewrite attempt_once_spec.
  destruct (bind _ validate_raw); [reflexivity|].
  destruct (attempt <? max_retries - 1)%nat; reflexivity.
Qed.

Lemma bind_validate_ok (r : result json) emb :
  bind r validate_raw = Ok emb -> validate_raw emb = Ok emb.
Proof.
  destruct r as [v|]; [|discriminate]. cbn [bind]. intros E.
  destruct (validate_raw_final _ _ E) as [-> _]. exact E.
Qed.

Lemma invocations_snoc tr ev :
  length (invocations (tr ++ [ev]))
  = (length (invocations tr) + (if is_invoke ev then 1 else 0))%nat.
Proof.
  unfold invocations. rewrite filter_app, length_app. simpl.
  destruct (is_invoke ev); reflexivity.
Qed.

(** [_call_bedrock] with three attempts, as a function of the outcomes
    of the attempts: the first success is returned, a failed attempt is
    followed by a sleep of [2 ** attempt] seconds, and the third failure
    is raised. *)
Lemma call_bedrock_3 bedrock m text tr0 :
  let I := Invoke m (request_body_for m text) in
  let out k := bind (bedrock m (request_body_for m text)
                       (length (invocations tr0) + k)) validate_raw in
  _call_bedrock bedrock m text 3 tr0
  = match out 0%nat with
    | Ok emb => (Ok emb, tr0 ++ [I])
    | Raise _ =>
        match out 1%nat with
        | Ok emb => (Ok emb, tr0 ++ [I; Sleep 1; I])
        | Raise _ =>
            match out 2%nat with
            | Ok emb => (Ok emb, tr0 ++ [I; Sleep 1; I; Sleep 2; I])
            | Raise e => (Raise e, tr0 ++ [I; Sleep 1; I; Sleep 2; I])
            end
        end
    end.
Proof.
  intros I out. unfold _call_bedrock.
  rewrite call_loop_step. fold I.
  replace (length (invocations tr0)) with (length (invocations tr0) + 0)%nat at 1 by lia.
  fold (out 0%nat). destruct (out 0%nat) as [emb1|e1]; [reflexivity|].
  change (0 <? 3 - 1)%nat with true. cbv iota.
  rewrite call_loop_step. fold I.
  rewrite !invocations_snoc. cbn [is_invoke I].
  replace (length (invocations tr0) + 1 + 0)%nat with (length (invocations tr0) + 1)%nat by lia.
  fold (out 1%nat). destruct (out 1%nat) as [emb2|e2].
  { rewrite <- !app_assoc. reflexivity. }
  change (1 <? 3 - 1)%nat with true. cbv iota.
  rewrite call_loop_step. fold I.
  change (2 <? 3 - 1)%nat with false. cbv iota.
  rewrite !invocations_snoc. cbn [is_invoke I].
  replace (length (invocations tr0) + 1 + 0 + 1 + 0)%nat with (length (invocations tr0) + 2)%nat by lia.
  fold (out 2%nat). destruct (out 2%nat) as [emb3|e3];
    rewrite <- !app_assoc; reflexivity.
Qed.

Lemma lstrip_length s : (length (lstrip s) <= length s)%nat.
Proof.
  induction s as [|c s IH]; simpl; [lia|].
  destruct (isspace c); simpl; lia.
Qed.

Lemma rstrip_length s : (length (rstrip s) <= length s)%nat.
Proof.
  induction s as [|c s IH]; simpl; [lia|].
  destruct (rstrip s); [destruct (isspace c)|]; simpl in *; lia.
Qed.

Lemma strip_length s : (length (strip s) <= length s)%nat.
Proof.
  unfold strip. etransitivity; [apply rstrip_length|apply lstrip_length].
Qed.

Lemma text_check_passes text :
  (5 <= len (strip text))%N ->
  negb (truthy (JStr text)) || (len (strip text) <? 5)%N = false.
Proof.
  intros H. apply orb_false_iff. split.
  - destruct text; [vm_compute in H; contradiction H; reflexivity|reflexivity].
  - apply N.ltb_ge. exact H.
Qed.

(** [generate_embedding] on an admissible text is [_call_bedrock] on the
    current model with the prepared text: the final validation accepts
    whatever [_call_bedrock] returned. *)
Lemma generate_embedding_admissible bedrock self text tr0 :
  (5 <= len (strip text))%N ->
  generate_embedding bedrock self text tr0
  = _call_bedrock bedrock (current_model self) (prepare_text text) 3 tr0.
Proof.
  intros H. unfold generate_embedding. rewrite (text_check_passes _ H).
  unfold mbind. rewrite call_bedrock_3. cbv zeta.
  repeat match goal with
    | |- context [match bind ?r validate_raw with _ => _ end] =>
        let E := fresh "E" in
        destruct (bind r validate_raw) eqn:E;
        [apply bind_validate_ok in E;
         rewrite (proj2 (validate_raw_final _ _ E)) | ]
    end; reflexivity.
Qed.

(** C5 (as amended).  A generation request on an admissible text tries
    the adapter's current model at most three times, sleeping 1 s after
    the first failure and 2 s after the second, returns the first
    validated vector and raises the error of the third attempt when all
    three fail.  No other model identifier is invoked. *)
Theorem generate_embedding_retries_current_model
    (bedrock : pystr -> json -> nat -> result json)
    (self : service) (text : pystr) (tr0 : trace) :
  (5 <= len (strip text))%N ->
  let m := current_model self in
  let I := Invoke m (request_body_for m (prepare_text text)) in
  let out k := bind (bedrock m (request_body_for m (prepare_text text))
                       (length (invocations tr0) + k)) validate_raw in
  (forall emb, out 0%nat = Ok emb ->
     generate_embedding bedrock self text tr0 = (Ok emb, tr0 ++ [I]))
  /\ (forall e0 emb, out 0%nat = Raise e0 -> out 1%nat = Ok emb ->
        generate_embedding bedrock self text tr0
        = (Ok emb, tr0 ++ [I; Sleep 1; I]))
  /\ (forall e0 e1 emb,
        out 0%nat = Raise e0 -> out 1%nat = Raise e1 -> out 2%nat = Ok emb ->
        generate_embedding bedrock self text tr0
        = (Ok emb, tr0 ++ [I; Sleep 1; I; Sleep 2; I]))
  /\ (forall e0 e1 e2,
        out 0%nat = Raise e0 -> out 1%nat = Raise e1 -> out 2%nat = Raise e2 ->
        generate_embedding bedrock self text tr0
        = (Raise e2, tr0 ++ [I; Sleep 1; I; Sleep 2; I])).
Proof.
  intros H m I out.
  rewrite (generate_embedding_admissible bedrock self text tr0 H), call_bedrock_3.
  subst m I out. cbv beta zeta.
  repeat split; intros.
  - rewrite H0. reflexivity.
  - rewrite H0, H1. reflexivity.
  - rewrite H0, H1, H2. reflexivity.
  - rewrite H0, H1, H2. reflexivity.
Qed.

Lemma generate_embedding_retries_current_model_witness :
  generate_embedding Scenarios.primary_down
    (Service Scenarios.primary 1024) (py "hello world") []
  = (Raise (Exn "ReadTimeoutError" (py "Read timeout on endpoint URL")),
     let I := Invoke Scenarios.primary
                (request_body_for Scenarios.primary (py "hello world")) in
     [I; Sleep 1; I; Sleep 2; I]).
Proof.
  refine (proj2 (proj2 (proj2
            (generate_embedding_retries_current_model Scenarios.primary_down
               (Service Scenarios.primary 1024) (py "hello world") [] _)))
            _ _ _ _ _ _);
    vm_compute; try reflexivity; discriminate.
Defined.

(** C5 (as stated) fails: with the primary model down and the secondary
    model answering, a generation request on the primary surfaces the
    error after three attempts and never invokes the secondary. *)
Lemma generate_embedding_no_failover :
  exists e tr,
    generate_embedding Scenarios.primary_down
      (Service Scenarios.primary 1024) (py "hello world") [] = (Raise e, tr)
    /\ existsb (Scenarios.names_model Scenarios.secondary) tr = false
    /\ length (invocations tr) = 3%nat
    /\ is_ok (fst (_call_bedrock Scenarios.primary_down Scenarios.secondary
                     (py "hello world") 3 tr)) = true.
Proof.
  do 2 eexists. split; [vm_compute; reflexivity|].
  repeat split; vm_compute; reflexivity.
Qed.

(** The fall-over across model identifiers is the loop of
    [_initialize_model]: three attempts on the primary, then the
    secondary. *)
Example initialize_model_falls_over :
  _initialize_model Scenarios.primary_down []
  = (Ok (Service Scenarios.secondary 2),
     let P := Invoke Scenarios.primary
                (request_body_for Scenarios.primary (py "test")) in
     [P; Sleep 1; P; Sleep 2; P;
      Invoke Scenarios.secondary (request_body_for Scenarios.secondary (py "test"))]).
Proof. vm_compute. reflexivity. Qed.

(** ** Text preparation *)

Lemma submitted_text_request m text :
  submitted_text (Invoke m (request_body_for m text)) = Some text.
Proof.
  unfold request_body_for. destruct (contains _ _); reflexivity.
Qed.

Lemma prepare_text_short text :
  (len (strip text) <= 8000)%N -> prepare_text text = strip text.
Proof.
  intros H. unfold prepare_text.
  destruct (8000 <? len (strip text))%N eqn:E; [|reflexivity].
  apply N.ltb_lt in E. lia.
Qed.

Lemma prepare_text_long text :
  (8000 < len (strip text))%N ->
  prepare_text text = firstn (N.to_nat 8000) (strip text) ++ py "..."
  /\ len (prepare_text text) = 8003%N.
Proof.
  intros H. unfold prepare_text.
  apply N.ltb_lt in H as E. rewrite E. split; [reflexivity|].
  unfold len in *. rewrite length_app, length_firstn.
  change (length (py "...")) with 3%nat. lia.
Qed.

Lemma prepare_text_bound text : (len (prepare_text text) <= 8003)%N.
Proof.
  destruct (N.le_gt_cases (len (strip text)) 8000) as [H|H].
  - rewrite (prepare_text_short _ H). lia.
  - rewrite (proj2 (prepare_text_long _ H)). lia.
Qed.

Lemma lstrip_fixed s :
  (forall c, hd_error s = Some c -> isspace c = false) -> lstrip s = s.
Proof.
  destruct s as [|c s]; [reflexivity|]. simpl. intros H.
  rewrite (H c eq_refl). reflexivity.
Qed.

Lemma rstrip_fixed s :
  (forall c, hd_error (rev s) = Some c -> isspace c = false) -> rstrip s = s.
Proof.
  induction s as [|c s IH]; [reflexivity|]. intros H. cbn [rstrip].
  destruct s as [|d s].
  - simpl. rewrite (H c eq_refl). reflexivity.
  - rewrite IH; [reflexivity|].
    intros x Hx. apply H. cbn [rev] in *.
    destruct (rev s ++ [d]) eqn:E; [destruct (rev s); discriminate|].
    exact Hx.
Qed.

(** [strip] leaves a text without leading or trailing whitespace as it is. *)
Lemma strip_fixed s :
  (forall c, hd_error s = Some c -> isspace c = false) ->
  (forall c, hd_error (rev s) = Some c -> isspace c = false) ->
  strip s = s.
Proof.
  intros Hl Hr. unfold strip.
  rewrite (lstrip_fixed _ Hl). apply rstrip_fixed, Hr.
Qed.

(** The events a generation request appends are invocations carrying the
    prepared text, and sleeps. *)
Lemma generate_embedding_events bedrock self text tr0 r tr :
  generate_embedding bedrock self text tr0 = (r, tr) ->
  exists new,
    tr = tr0 ++ new
    /\ Forall (fun ev => ev = Invoke (current_model self)
                            (request_body_for (current_model self) (prepare_text text))
                         \/ exists n, ev = Sleep n) new.
Proof.
  unfold generate_embedding.
  destruct (negb (truthy (JStr text)) || (len (strip text) <? 5)%N) eqn:E.
  - unfold raise. intros [= <- <-]. exists []. rewrite app_nil_r. auto.
  - intros H.
    assert (Hadm : (5 <= len (strip text))%N).
    { apply orb_false_iff in E as [_ E]. apply N.ltb_ge in E. exact E. }
    pose proof (generate_embedding_admissible bedrock self text tr0 Hadm) as G.
    unfold generate_embedding in G. rewrite E in G. rewrite G in H. clear G.
    rewrite call_bedrock_3 in H. cbv zeta in H.
    repeat match type of H with
      | match ?x with _ => _ end = _ => destruct x
      end;
      injection H as <- <-; eexists; (split; [reflexivity|]);
      repeat (apply Forall_cons;
              [first [left; reflexivity | right; eexists; reflexivity]|]);
      apply Forall_nil.
Qed.

(** C8 (as amended).  Whatever a generation request submits to the model
    is the prepared text: the input trimmed, cut to its first 8000
    characters followed by the marker ["..."] when the trimmed text is
    longer than 8000 characters.  It is never longer than 8003
    characters (so in particular for an input of 9000 characters), it is
    the trimmed input when that has at most 8000 characters (the input
    itself when it has no surrounding whitespace), and an input whose
    trimmed length is below 5 is rejected with an error before anything
    is submitted. *)
Theorem generate_embedding_submits_prepared_text
    (bedrock : pystr -> json -> nat -> result json)
    (self : service) (text : pystr) (tr0 : trace)
    (r : result json) (tr : trace) :
  generate_embedding bedrock self text tr0 = (r, tr) ->
  (exists new, tr = tr0 ++ new
      /\ forall ev t, In ev new -> submitted_text ev = Some t ->
           t = prepare_text text /\ (len t <= 8003)%N)
  /\ ((5 <= len (strip text))%N ->
      exists rest,
        tr = tr0 ++ Invoke (current_model self)
                      (request_body_for (current_model self) (prepare_text text))
                    :: rest)
  /\ ((len (strip text) <= 8000)%N -> prepare_text text = strip text)
  /\ ((len text <= 8000)%N ->
      (forall c, hd_error text = Some c -> isspace c = false) ->
      (forall c, hd_error (rev text) = Some c -> isspace c = false) ->
      prepare_text text = text)
  /\ ((8000 < len (strip text))%N ->
      prepare_text text = firstn (N.to_nat 8000) (strip text) ++ py "..."
      /\ len (prepare_text text) = 8003%N)
  /\ ((len (strip text) < 5)%N ->
      r = Raise (ValueError (py "Text too short for embedding generation"))
      /\ tr = tr0).
Proof.
  intros H. split; [|split; [|split; [|split; [|split]]]].
  - destruct (generate_embedding_events _ _ _ _ _ _ H) as (new & -> & Hall).
    exists new. split; [reflexivity|]. intros ev t Hin Hsub.
    rewrite Forall_forall in Hall. destruct (Hall ev Hin) as [->|[n ->]].
    + rewrite submitted_text_request in Hsub. injection Hsub as <-.
      split; [reflexivity|apply prepare_text_bound].
    + discriminate.
  - intros Hadm.
    rewrite (generate_embedding_admissible bedrock self text tr0 Hadm),
      call_bedrock_3 in H.
    cbv zeta in H.
    repeat match type of H with
      | match ?x with _ => _ end = _ => destruct x
      end;
      injection H as <- <-; eexists; reflexivity.
  - apply prepare_text_short.
  - intros Hlen Hl Hr. rewrite <- (strip_fixed _ Hl Hr) at 2.
    apply prepare_text_short. rewrite (strip_fixed _ Hl Hr). exact Hlen.
  - apply prepare_text_long.
  - intros Hshort. unfold generate_embedding in H.
    apply N.ltb_lt in Hshort. rewrite Hshort, orb_true_r in H.
    unfold raise in H. injection H as <- <-. split; reflexivity.
Qed.

Lemma generate_embedding_submits_prepared_text_witness :
  let text := repeat 97%N (N.to_nat 9000) in
  len text = 9000%N
  /\ prepare_text text = firstn (N.to_nat 8000) (strip text) ++ py "..."
  /\ len (prepare_text text) = 8003%N.
Proof.
  intros text. split; [vm_compute; reflexivity|].
  assert (Hadm : (5 <= len (strip text))%N) by (vm_compute; discriminate).
  assert (Hlong : (8000 < len (strip text))%N) by (vm_compute; reflexivity).
  pose proof (generate_embedding_admissible Scenarios.always_up
                (Service Scenarios.primary 2) text [] Hadm) as Hrun.
  rewrite call_bedrock_3 in Hrun.
  exact (proj1 (proj2 (proj2 (proj2 (proj2
           (generate_embedding_submits_prepared_text Scenarios.always_up
              (Service Scenarios.primary 2) text [] _ _ Hrun))))) Hlong).
Defined.

(** C8 (as stated) fails: a short text with surrounding whitespace is not
    submitted unchanged, it is submitted trimmed. *)
Lemma padded_text_not_submitted_unchanged :
  let text := py "  hello world " in
  (len text <= 8000)%N
  /\ exists r tr,
       generate_embedding Scenarios.always_up
         (Service Scenarios.primary 2) text [] = (r, tr)
       /\ map submitted_text tr = [Some (py "hello world")]
       /\ py "hello world" <> text.
Proof.
  intros text. split; [vm_compute; discriminate|].
  do 2 eexists. split; [vm_compute; reflexivity|].
  split; [vm_compute; reflexivity|].
  intros H. vm_compute in H. discriminate H.
Qed.

(** ** The recommendation handler *)

Import OpenSearch Lambda.

Example recommend_ranked :
  fst (handle_recommendation_request Scenarios.exact (Ok Engine.standard)
         (Scenarios.request "u1")
         (Scenarios.cluster_of (py "2.11.0")
            [(py "j-old", Scenarios.job_old); (py "j-new", Scenarios.job_new)]))
  = recommendations_found Scenarios.exact (JStr (py "u1"))
      (dict_remove (py "cv_text") Scenarios.cv_u1)
      (SearchResponse 1 1
         [Hit (py "j-old") 1 (dict_remove (py "job_embedding") Scenarios.job_old)]).
Proof. vm_compute. reflexivity. Qed.

Lemma dict_get_default_some k v d default :
  dict_get k d = Some v -> dict_get_default k default d = v.
Proof. unfold dict_get_default. intros ->. reflexivity. Qed.

(** The handler up to the similarity search, for a stored candidate with
    a usable vector. *)
Lemma handler_after_lookup fl S (cl : client S) body user_id cv emb st st1 :
  dict_get (py "user_id") body = Some user_id ->
  truthy user_id = true ->
  get_cv_by_user_id cl user_id st = (Some cv, st1) ->
  dict_get (py "cv_embedding") cv = Some emb ->
  truthy emb = true ->
  handle_recommendation_request fl (Ok cl) body st
  = match search_similar_jobs cl emb 10 st1 with
    | (Raise e, st2) => (failed e, st2)
    | (Ok similar_jobs, st2) =>
        match hits similar_jobs with
        | [] => (no_matching_jobs user_id, st2)
        | _ :: _ => (recommendations_found fl user_id cv similar_jobs, st2)
        end
    end.
Proof.
  intros Hid Hu Hcv Hemb He. unfold handle_recommendation_request.
  rewrite (dict_get_default_some _ _ _ _ Hid), Hu, Hcv. cbn [negb].
  assert (truthy (JDict cv) = true) as ->.
  { destruct cv; [discriminate Hemb|reflexivity]. }
  rewrite (dict_get_default_some _ _ _ _ Hemb), He. reflexivity.
Qed.

(** C2 (as amended).  When the candidate is found with a usable vector
    and the similarity search returns no hit, the handler answers with
    status 404 and an explicit empty result: a [message], the user id and
    an empty [recommendations] list, without an [error] entry. *)
Theorem zero_hits_answered_with_404_empty_result
    (fl : Q -> Q) (S : Type) (cl : client S) (request_body : dict) (user_id : json)
    (cv : dict) (emb : json) (st st1 st2 : S) (similar_jobs : search_response) :
  dict_get (py "user_id") request_body = Some user_id ->
  truthy user_id = true ->
  get_cv_by_user_id cl user_id st = (Some cv, st1) ->
  dict_get (py "cv_embedding") cv = Some emb ->
  truthy emb = true ->
  search_similar_jobs cl emb 10 st1 = (Ok similar_jobs, st2) ->
  hits similar_jobs = [] ->
  exists resp,
    handle_recommendation_request fl (Ok cl) request_body st = (resp, st2)
    /\ statusCode resp = 404%Z
    /\ body resp
       = JDict [(py "message", JStr (py "No matching jobs found at the moment."));
                (py "user_id", user_id);
                (py "recommendations", JList [])].
Proof.
  intros Hid Hu Hcv Hemb He Hs Hh.
  rewrite (handler_after_lookup fl S cl request_body user_id cv emb st st1 Hid Hu Hcv Hemb He), Hs, Hh.
  eexists. split; [reflexivity|]. split; reflexivity.
Qed.

Lemma zero_hits_answered_with_404_empty_result_witness :
  exists resp,
    handle_recommendation_request Scenarios.exact (Ok Engine.standard)
      (Scenarios.request "u1") (Scenarios.cluster_of (py "2.11.0") [])
    = (resp, Scenarios.cluster_of (py "2.11.0") [])
    /\ statusCode resp = 404%Z
    /\ body resp
       = JDict [(py "message", JStr (py "No matching jobs found at the moment."));
                (py "user_id", JStr (py "u1"));
                (py "recommendations", JList [])].
Proof.
  apply (zero_hits_answered_with_404_empty_result Scenarios.exact
           Engine.cluster Engine.standard (Scenarios.request "u1") (JStr (py "u1"))
           (dict_remove (py "cv_text") Scenarios.cv_u1)
           (JList [JFloat 1; JFloat 0])
           (Scenarios.cluster_of (py "2.11.0") [])
           (Scenarios.cluster_of (py "2.11.0") [])
           (Scenarios.cluster_of (py "2.11.0") [])
           (SearchResponse 1 0 []));
    vm_compute; reflexivity.
Defined.

(** C2 (as stated) fails: with the candidate found and an empty job
    index the handler answers 404, an error status. *)
Lemma zero_hits_status_is_an_error_status :
  let '(resp, _) :=
    handle_recommendation_request Scenarios.exact (Ok Engine.standard)
      (Scenarios.request "u1") (Scenarios.cluster_of (py "2.11.0") []) in
  is_ok (fst (search_similar_jobs Engine.standard (JList [JFloat 1; JFloat 0]) 10
                (Scenarios.cluster_of (py "2.11.0") []))) = true
  /\ statusCode resp = 404%Z
  /\ is_error_status (statusCode resp) = true.
Proof. vm_compute. repeat split; reflexivity. Qed.

Lemma json_len_zero_falsy v : json_len v = Ok 0%N -> truthy v = false.
Proof.
  destruct v as [| | | |s|l|d]; try discriminate; unfold json_len, len;
    intros [= H]; [destruct s|destruct l|destruct d]; try reflexivity;
    cbn [length] in H; lia.
Qed.

(** [get_cv_by_user_id] when the index exists and the search has a hit:
    the first hit's source is returned exactly when the [len] of its
    [cv_embedding] (of [[]] when the field is absent) can be taken. *)
Lemma get_cv_by_user_id_hit
    S (cl : client S) user_id (st st1 st2 : S) found h rest :
  c_exists cl cv_index st = (Ok true, st1) ->
  c_search cl cv_index (cv_lookup_body user_id) st1 = (Ok found, st2) ->
  hits found = h :: rest ->
  get_cv_by_user_id cl user_id st
  = (match json_len (dict_get_default (py "cv_embedding") (JList []) (_source h)) with
     | Ok _ => Some (_source h)
     | Raise _ => None
     end, st2).
Proof.
  intros He Hs Hh. unfold get_cv_by_user_id, cv_lookup, mbind, lift, ret.
  rewrite He. cbn [negb]. rewrite Hs, Hh.
  destruct (json_len _); reflexivity.
Qed.

(** C3 (as amended).  When the lookup finds the candidate's profile and
    the profile has no usable vector, its [cv_embedding] field being
    absent or empty, the handler answers with status 400 and tells the
    caller to upload the CV again. *)
Theorem missing_embedding_answered_with_400
    (fl : Q -> Q) (S : Type) (cl : client S) (request_body : dict)
    (user_id : json) (st st1 st2 : S)
    (found : search_response) (h : hit) (rest : list hit) :
  dict_get (py "user_id") request_body = Some user_id ->
  truthy user_id = true ->
  c_exists cl cv_index st = (Ok true, st1) ->
  c_search cl cv_index (cv_lookup_body user_id) st1 = (Ok found, st2) ->
  hits found = h :: rest ->
  truthy (JDict (_source h)) = true ->
  (dict_get (py "cv_embedding") (_source h) = None
   \/ exists v, dict_get (py "cv_embedding") (_source h) = Some v
                /\ json_len v = Ok 0%N) ->
  get_cv_by_user_id cl user_id st = (Some (_source h), st2)
  /\ exists resp,
       handle_recommendation_request fl (Ok cl) request_body st = (resp, st2)
       /\ statusCode resp = 400%Z
       /\ body resp
          = JDict [(py "error",
                    JStr (py "CV embedding not available. Please re-upload your CV."));
                   (py "user_id", user_id)].
Proof.
  intros Hid Hu He Hs Hh Ht Hemb.
  assert (Hcv : get_cv_by_user_id cl user_id st = (Some (_source h), st2)).
  { rewrite (get_cv_by_user_id_hit S cl user_id st st1 st2 found h rest He Hs Hh).
    unfold dict_get_default.
    destruct Hemb as [-> | (v & -> & Hv)]; [reflexivity|rewrite Hv; reflexivity]. }
  assert (Hf : truthy (dict_get_default (py "cv_embedding") JNull (_source h)) = false).
  { unfold dict_get_default.
    destruct Hemb as [-> | (v & -> & Hv)];
      [reflexivity|exact (json_len_zero_falsy v Hv)]. }
  split; [exact Hcv|].
  unfold handle_recommendation_request.
  rewrite (dict_get_default_some _ _ _ _ Hid), Hu, Hcv, Ht, Hf. cbn [negb].
  eexists. split; [reflexivity|]. split; reflexivity.
Qed.

Lemma missing_embedding_answered_with_400_witness :
  get_cv_by_user_id Engine.standard (JStr (py "u2"))
    (Scenarios.cluster_of (py "2.11.0") [])
  = (Some (dict_remove (py "cv_text") Scenarios.cv_u2),
     Scenarios.cluster_of (py "2.11.0") [])
  /\ exists resp,
       handle_recommendation_request Scenarios.exact (Ok Engine.standard)
         (Scenarios.request "u2") (Scenarios.cluster_of (py "2.11.0") [])
       = (resp, Scenarios.cluster_of (py "2.11.0") [])
       /\ statusCode resp = 400%Z
       /\ body resp
          = JDict [(py "error",
                    JStr (py "CV embedding not available. Please re-upload your CV."));
                   (py "user_id", JStr (py "u2"))].
Proof.
  apply (missing_embedding_answered_with_400 Scenarios.exact
           Engine.cluster Engine.standard (Scenarios.request "u2") (JStr (py "u2"))
           (Scenarios.cluster_of (py "2.11.0") [])
           (Scenarios.cluster_of (py "2.11.0") [])
           (Scenarios.cluster_of (py "2.11.0") [])
           (SearchResponse 1 1
              [Hit (py "u2") 1 (dict_remove (py "cv_text") Scenarios.cv_u2)])
           (Hit (py "u2") 1 (dict_remove (py "cv_text") Scenarios.cv_u2)) []);
    try (vm_compute; reflexivity).
  left. vm_compute. reflexivity.
Defined.

(** C3 (as stated) fails: for a stored candidate without a vector the
    status is 400, not 404. *)
Lemma missing_embedding_status_is_not_404 :
  fst (get_cv_by_user_id Engine.standard (JStr (py "u2"))
         (Scenarios.cluster_of (py "2.11.0") []))
  = Some (dict_remove (py "cv_text") Scenarios.cv_u2)
  /\ statusCode
       (fst (handle_recommendation_request Scenarios.exact (Ok Engine.standard)
               (Scenarios.request "u2") (Scenarios.cluster_of (py "2.11.0") [])))
     <> 404%Z.
Proof. split; [vm_compute; reflexivity|vm_compute; discriminate]. Qed.

(** [get_cv_by_user_id] turns every failure of the lookup into [None]. *)
Lemma get_cv_by_user_id_swallows S (cl : client S) user_id st e st' :
  cv_lookup cl user_id st = (Raise e, st') ->
  get_cv_by_user_id cl user_id st = (None, st').
Proof. unfold get_cv_by_user_id. intros ->. reflexivity. Qed.

(** C10.  Whatever fails inside the candidate lookup, be it the check
    that the index exists or the search itself, [get_cv_by_user_id]
    returns [None], and the handler answers exactly as for a candidate
    that is not stored: status 404 with the "upload your CV first"
    message. *)
Theorem store_failure_reported_as_cv_not_found
    (fl : Q -> Q) (S : Type) (cl : client S) (request_body : dict)
    (user_id : json) (st st' : S) (e : exn) :
  dict_get (py "user_id") request_body = Some user_id ->
  truthy user_id = true ->
  (c_exists cl cv_index st = (Raise e, st')
   \/ exists st1,
        c_exists cl cv_index st = (Ok true, st1)
        /\ c_search cl cv_index (cv_lookup_body user_id) st1 = (Raise e, st')) ->
  get_cv_by_user_id cl user_id st = (None, st')
  /\ exists resp,
       handle_recommendation_request fl (Ok cl) request_body st = (resp, st')
       /\ statusCode resp = 404%Z
       /\ body resp
          = JDict [(py "error",
                    JStr (py "CV not found for this user. Please upload your CV first."));
                   (py "user_id", user_id)].
Proof.
  intros Hid Hu Hfail.
  assert (Hnone : get_cv_by_user_id cl user_id st = (None, st')).
  { apply get_cv_by_user_id_swallows with e. unfold cv_lookup, mbind.
    destruct Hfail as [-> | (st1 & -> & Hs)]; [reflexivity|].
    cbn [negb]. rewrite Hs. reflexivity. }
  split; [exact Hnone|].
  unfold handle_recommendation_request.
  rewrite (dict_get_default_some _ _ _ _ Hid), Hu, Hnone. cbn [negb].
  eexists. split; [reflexivity|]. split; reflexivity.
Qed.

Lemma store_failure_reported_as_cv_not_found_witness :
  get_cv_by_user_id Engine.standard (JStr (py "u1")) Scenarios.down
  = (None, Scenarios.down)
  /\ exists resp,
       handle_recommendation_request Scenarios.exact (Ok Engine.standard)
         (Scenarios.request "u1") Scenarios.down = (resp, Scenarios.down)
       /\ statusCode resp = 404%Z
       /\ body resp
          = JDict [(py "error",
                    JStr (py "CV not found for this user. Please upload your CV first."));
                   (py "user_id", JStr (py "u1"))].
Proof.
  apply (store_failure_reported_as_cv_not_found Scenarios.exact
           Engine.cluster Engine.standard (Scenarios.request "u1") (JStr (py "u1"))
           Scenarios.down Scenarios.down Engine.connection_error).
  - vm_compute. reflexivity.
  - vm_compute. reflexivity.
  - left. vm_compute. reflexivity.
Defined.

(** ** The match percentage *)

Lemma int_of_float_nonneg x : (0 <= Qnum x)%Z -> int_of_float x = Qfloor x.
Proof.
  intros H. unfold int_of_float. destruct x as [n d]. cbn [Qnum Qden Qfloor] in *.
  apply Z.quot_div_nonneg; lia.
Qed.

Lemma int_of_float_neg x : (Qnum x < 0)%Z -> int_of_float x = Qceiling x.
Proof.
  intros H. unfold int_of_float, Qceiling. destruct x as [n d].
  cbn [Qnum Qden Qfloor Qopp] in *.
  rewrite <- (Z.opp_involutive n) at 1. rewrite Z.quot_opp_l by lia.
  f_equal. apply Z.quot_div_nonneg; lia.
Qed.

Lemma int_of_float_mono x y : (x <= y)%Q -> (int_of_float x <= int_of_float y)%Z.
Proof.
  intros H.
  destruct (Z_lt_le_dec (Qnum x) 0) as [Hx|Hx];
    destruct (Z_lt_le_dec (Qnum y) 0) as [Hy|Hy].
  - rewrite !int_of_float_neg by assumption. apply Qceiling_resp_le, H.
  - rewrite (int_of_float_neg _ Hx), (int_of_float_nonneg _ Hy).
    unfold Qceiling. destruct x as [n d], y as [m k].
    cbn [Qnum Qden Qfloor Qopp] in *.
    assert (0 <= m / Z.pos k)%Z by (apply Z.div_pos; lia).
    assert (0 <= - n / Z.pos d)%Z by (apply Z.div_pos; lia).
    lia.
  - exfalso. unfold Qle in H. destruct x as [n d], y as [m k].
    cbn [Qnum Qden] in *. nia.
  - rewrite !int_of_float_nonneg by assumption. apply Qfloor_resp_le, H.
Qed.

(** C9.  The match percentage of a hit is
    [min(100, max(0, int(score * 10)))]: it lies in [0, 100] for every
    score, and it is non-decreasing in the score because floating-point
    rounding is. *)
Theorem match_percentage_bounded_monotone (fl : Q -> Q) :
  (forall x y, (x <= y)%Q -> (fl x <= fl y)%Q) ->
  (forall score,
      match_percentage fl score
      = Z.min 100 (Z.max 0 (int_of_float (fl (score * 10)%Q)))
      /\ (0 <= match_percentage fl score <= 100)%Z)
  /\ (forall s1 s2, (s1 <= s2)%Q ->
        (match_percentage fl s1 <= match_percentage fl s2)%Z)
  /\ (forall h fields,
        recommendation fl h = JDict fields ->
        dict_get (py "match_percentage") fields
        = Some (JInt (match_percentage fl (_score h)))).
Proof.
  intros Hfl. split; [|split].
  - intros score. split; [reflexivity|]. unfold match_percentage. lia.
  - intros s1 s2 H. unfold match_percentage.
    assert (int_of_float (fl (s1 * 10)%Q) <= int_of_float (fl (s2 * 10)%Q))%Z.
    { apply int_of_float_mono, Hfl.
      apply Qmult_le_compat_r; [exact H|discriminate]. }
    lia.
  - intros h fields [= <-]. reflexivity.
Qed.

Lemma match_percentage_bounded_monotone_witness :
  (match_percentage Scenarios.exact (7 # 10)
   <= match_percentage Scenarios.exact (25 # 2))%Z
  /\ match_percentage Scenarios.exact (7 # 10) = 7%Z
  /\ match_percentage Scenarios.exact (25 # 2) = 100%Z
  /\ match_percentage Scenarios.exact (- (3 # 1)) = 0%Z.
Proof.
  split.
  - apply (proj1 (proj2 (match_percentage_bounded_monotone Scenarios.exact
                           (fun x y H => H)))).
    vm_compute. discriminate.
  - repeat split; vm_compute; reflexivity.
Defined.

(** ** Writing documents *)

Lemma str_eqb_refl a : str_eqb a a = true.
Proof. induction a as [|x a IH]; simpl; [reflexivity|]. rewrite N.eqb_refl. exact IH. Qed.

Lemma str_eqb_eq a b : str_eqb a b = true <-> a = b.
Proof.
  split; [|intros ->; apply str_eqb_refl].
  revert b. induction a as [|x a IH]; intros [|y b]; simpl; try discriminate; auto.
  intros H. apply andb_true_iff in H as [Hx Hab].
  apply N.eqb_eq in Hx. f_equal; auto.
Qed.

Lemma str_eqb_sym a b : str_eqb a b = str_eqb b a.
Proof.
  destruct (str_eqb a b) eqn:E.
  - apply str_eqb_eq in E as ->. symmetry. apply str_eqb_refl.
  - destruct (str_eqb b a) eqn:E'; [|reflexivity].
    apply str_eqb_eq in E' as ->. rewrite str_eqb_refl in E. discriminate.
Qed.

Lemma dict_get_remove_same k d : dict_get k (dict_remove k d) = None.
Proof.
  induction d as [|[k' v] d IH]; [reflexivity|].
  unfold dict_remove in *. cbn [filter fst].
  destruct (str_eqb k' k) eqn:E; cbn [negb]; [exact IH|].
  cbn [dict_get]. rewrite str_eqb_sym, E. exact IH.
Qed.

Lemma dict_get_set_same k v d : dict_get k (dict_set k v d) = Some v.
Proof.
  induction d as [|[k' v'] d IH]; cbn [dict_set dict_get].
  - rewrite str_eqb_refl. reflexivity.
  - destruct (str_eqb k k') eqn:E; cbn [dict_get].
    + rewrite str_eqb_refl. reflexivity.
    + rewrite E. exact IH.
Qed.

Lemma dict_get_set_other k k' v d :
  str_eqb k k' = false -> dict_get k (dict_set k' v d) = dict_get k d.
Proof.
  intros Hk. induction d as [|[k'' v''] d IH]; cbn [dict_set dict_get].
  - rewrite Hk. reflexivity.
  - destruct (str_eqb k' k'') eqn:E; cbn [dict_get].
    + apply str_eqb_eq in E as <-. rewrite Hk. reflexivity.
    + destruct (str_eqb k k''); [reflexivity|exact IH].
Qed.

Lemma dict_in_remove_same k d : dict_in k (dict_remove k d) = false.
Proof. unfold dict_in. rewrite dict_get_remove_same. reflexivity. Qed.

(** The job path validates the vector in full: a document whose
    [job_embedding] is not a non-empty list of numbers is sent without
    the field, tagged [invalid_embedding_removed]; the retry document
    never carries the field either, and an accepted write is a success. *)
Lemma index_job_document_strips_invalid
    S (cl : client S) (job_id : pystr) (document : dict) (st : S) :
  dict_in (py "job_embedding") document = true ->
  embedding_is_valid (dict_get_default (py "job_embedding") JNull document) = false ->
  dict_in (py "job_embedding") (doc_to_index document) = false
  /\ dict_get (py "embedding_status") (doc_to_index document)
     = Some (JStr (py "invalid_embedding_removed"))
  /\ dict_in (py "job_embedding") (doc_retry document) = false
  /\ (forall r st',
        c_index cl job_index job_id (doc_to_index document) st = (Ok r, st') ->
        index_job_document cl job_id document st = (Ok r, st')).
Proof.
  intros Hin Hbad. unfold doc_to_index. rewrite Hin, Hbad. cbn [negb].
  repeat split.
  - unfold dict_in. rewrite dict_get_set_other by reflexivity.
    rewrite dict_get_remove_same. reflexivity.
  - apply dict_get_set_same.
  - unfold doc_retry, dict_in. rewrite dict_get_set_other by reflexivity.
    rewrite dict_get_remove_same. reflexivity.
  - intros r st' H. unfold index_job_document, mtry, doc_to_index.
    rewrite Hin, Hbad. cbn [negb]. rewrite H. reflexivity.
Qed.

Example index_job_document_null_entry :
  let document := [(py "job_id", JStr (py "j1"));
                   (py "job_embedding", JList [JNull; JFloat 1])] in
  let '(r, st) := index_job_document Engine.standard (py "j1") document
                    (Scenarios.cluster_of (py "2.11.0") []) in
  r = Ok Created
  /\ Engine.index_docs job_index (Engine.indices st)
     = Some [(py "j1",
              [(py "job_id", JStr (py "j1"));
               (py "embedding_status", JStr (py "invalid_embedding_removed"))])].
Proof. vm_compute. split; reflexivity. Qed.

(** C1, the candidate path.  [index_cv_document] removes [cv_embedding]
    only when it is falsy.  A vector with a null entry is handed to the
    store as it is: whatever the client, the call is the client's
    [index] of the unchanged document, so a store without a strict
    mapping persists the null entry and a store with one rejects the
    write. *)
Theorem index_cv_document_keeps_null_entries :
  dict_get (py "cv_embedding") Scenarios.cv_bad = Some (JList [JNull; JFloat 1])
  /\ (forall S (cl : client S) (st : S),
        index_cv_document cl (py "u3") Scenarios.cv_bad st
        = c_index cl cv_index (py "u3") Scenarios.cv_bad st)
  /\ (let '(r, st) := index_cv_document Engine.standard (py "u3") Scenarios.cv_bad
                        (Engine.Cluster true (Some (py "2.11.0")) true false []) in
      r = Ok Created
      /\ Engine.index_docs cv_index (Engine.indices st)
         = Some [(py "u3", Scenarios.cv_bad)])
  /\ (let '(r, st) := index_cv_document Engine.standard (py "u3") Scenarios.cv_bad
                        (Engine.Cluster true (Some (py "2.11.0")) true true []) in
      r = Raise (Engine.mapping_error (py "cv_embedding"))
      /\ Engine.index_docs cv_index (Engine.indices st) = None).
Proof.
  split; [reflexivity|]. split; [intros; reflexivity|].
  split; vm_compute; split; reflexivity.
Qed.

(** ** Similarity search *)

Lemma insert_by_in {A} (before : A -> A -> bool) x y l :
  In y (Engine.insert_by before x l) -> y = x \/ In y l.
Proof.
  induction l as [|z l IH]; simpl.
  - intros [<-|[]]. left. reflexivity.
  - destruct (before x z); simpl.
    + intros [<-|[<-|H]]; auto.
    + intros [<-|H]; auto. destruct (IH H); auto.
Qed.

Lemma sort_by_in {A} (before : A -> A -> bool) y l :
  In y (Engine.sort_by before l) -> In y l.
Proof.
  induction l as [|x l IH]; simpl; [auto|].
  intros H. apply insert_by_in in H as [->|H]; auto.
Qed.

Lemma firstn_in {A} n (l : list A) y : In y (firstn n l) -> In y l.
Proof.
  revert l. induction n as [|n IH]; intros [|x l]; simpl; try tauto.
  intros [->|H]; auto.
Qed.

(** Every hit of the reference cluster is a stored document that matches
    the query; its source is the stored document without the excluded
    fields. *)
Lemma run_search_hits similarity knn_candidate body docs h :
  In h (hits (Engine.run_search similarity knn_candidate body docs)) ->
  exists d,
    In (_id h, d) docs
    /\ Engine.matches knn_candidate (sb_query body) d = true
    /\ _source h = Engine.project (sb_source_exclude body) d.
Proof.
  unfold Engine.run_search. cbn [hits]. intros H.
  apply in_map_iff in H as ([[id sc] d] & <- & H).
  apply firstn_in, sort_by_in in H.
  apply in_map_iff in H as ([id' d'] & [= <- <- <-] & H).
  apply filter_In in H as [Hin Hm]. cbn [fst snd] in *.
  exists d'. auto.
Qed.

Lemma nonempty_list_not_empty x l :
  embedding_is_empty (JList (x :: l)) = Ok false.
Proof.
  unfold embedding_is_empty, json_len, len. cbn [truthy negb bind length].
  destruct (N.of_nat (S (length l)) =? 0)%N eqn:E; [|reflexivity].
  apply N.eqb_eq in E. lia.
Qed.

(** C6.  On a cluster whose version supports vector search, whatever the
    similarity and whatever documents the [knn] clause considers, a
    result of the vector query is the result of [search_similar_jobs],
    and each of its hits is a stored job whose [job_embedding] field has
    a value: the query carries an [exists] filter on that field. *)
Theorem vector_hits_have_embedding
    (similarity : json -> option json -> Q)
    (knn_candidate : pystr -> json -> dict -> bool)
    (st st' : Engine.cluster) (x : json) (l : list json) (size : nat)
    (resp : search_response) :
  (exists v, Engine.version st = Some v /\ supports_knn v = true) ->
  search_primary (Engine.engine similarity knn_candidate) (JList (x :: l)) size st
  = (Ok resp, st') ->
  search_similar_jobs (Engine.engine similarity knn_candidate) (JList (x :: l)) size st
  = (Ok resp, st')
  /\ Forall (fun h =>
               exists d docs,
                 Engine.index_docs job_index (Engine.indices st) = Some docs
                 /\ In (_id h, d) docs
                 /\ Engine.has_value (py "job_embedding") d = true
                 /\ dict_in (py "job_embedding") d = true
                 /\ dict_in (py "job_embedding") (_source h) = false)
            (hits resp).
Proof.
  intros (v & Hv & Hk) H. split.
  { unfold search_similar_jobs, mtry. rewrite H. reflexivity. }
  revert H. unfold search_primary, mbind, lift.
  rewrite nonempty_list_not_empty.
  cbn [Engine.engine c_info c_search]. unfold Engine.e_info.
  destruct (Engine.reachable st) eqn:Hr; [|discriminate].
  cbv zeta. unfold reported_version. cbn [version_number]. rewrite Hv, Hk.
  unfold Engine.e_search. rewrite Hr. cbn [negb].
  destruct (Engine.index_docs job_index (Engine.indices st)) as [docs|] eqn:Hd;
    [|discriminate].
  destruct (Engine.uses_knn _ && _); [discriminate|].
  intros [= <- <-]. apply Forall_forall. intros h Hh.
  apply run_search_hits in Hh as (d & Hin & Hm & Hsrc).
  cbn [knn_search sb_query sb_source_exclude Engine.matches forallb] in Hm, Hsrc.
  apply andb_true_iff in Hm as [Hm _]. apply andb_true_iff in Hm as [_ Hm].
  apply andb_true_iff in Hm as [Hm _].
  exists d, docs. split; [reflexivity|]. split; [exact Hin|]. split; [exact Hm|].
  split.
  - unfold Engine.has_value in Hm. unfold dict_in.
    destruct (dict_get (py "job_embedding") d); [reflexivity|discriminate].
  - rewrite Hsrc. cbn [Engine.project fold_right]. apply dict_in_remove_same.
Qed.

Lemma vector_hits_have_embedding_witness :
  let st := Scenarios.cluster_of (py "2.11.0")
              [(py "j-new", Scenarios.job_new); (py "j-old", Scenarios.job_old)] in
  let resp := SearchResponse 1 1
                [Hit (py "j-old") 1
                   (dict_remove (py "job_embedding") Scenarios.job_old)] in
  search_similar_jobs Engine.standard (JList [JFloat 1; JFloat 0]) 10 st = (Ok resp, st)
  /\ Forall (fun h =>
               exists d docs,
                 Engine.index_docs job_index (Engine.indices st) = Some docs
                 /\ In (_id h, d) docs
                 /\ Engine.has_value (py "job_embedding") d = true
                 /\ dict_in (py "job_embedding") d = true
                 /\ dict_in (py "job_embedding") (_source h) = false)
            (hits resp).
Proof.
  intros st resp.
  apply (vector_hits_have_embedding Engine.l2_similarity
           (fun field _ d => Engine.is_vector (dict_get_default field JNull d))
           st st (JFloat 1) [JFloat 0] 10 resp).
  - exists (py "2.11.0"). split; reflexivity.
  - vm_compute. reflexivity.
Defined.

(** C4 (as amended).  With a non-empty query vector:
    - when the reported version does not support vector search, the
      answer is the store's answer to a query for at most [size] jobs
      that have a [job_embedding];
    - when the capability check or the vector query raises, the answer is
      the store's answer to a [match_all] query for at most [size] jobs,
      and the original error is raised if that query fails too.
    Both queries exclude [job_embedding] from the projection and carry no
    sort clause. *)
Theorem search_similar_jobs_degrades_to_unsorted_query
    (S : Type) (cl : client S) (x : json) (l : list json) (size : nat) (st : S) :
  let emb := JList (x :: l) in
  (exists_search size
   = SearchBody size (Bool [Exists (py "job_embedding")] [] []) [py "job_embedding"] []
   /\ basic_search size = SearchBody size MatchAll [py "job_embedding"] [])
  /\ (forall info st1 r st2,
        c_info cl st = (Ok info, st1) ->
        supports_knn (reported_version info) = false ->
        c_search cl job_index (exists_search size) st1 = (Ok r, st2) ->
        search_similar_jobs cl emb size st = (Ok r, st2))
  /\ (forall e st1,
        c_info cl st = (Raise e, st1)
        \/ (exists info st0,
              c_info cl st = (Ok info, st0)
              /\ supports_knn (reported_version info) = true
              /\ c_search cl job_index (knn_search emb size) st0 = (Raise e, st1)) ->
        (forall r st2,
           c_search cl job_index (basic_search size) st1 = (Ok r, st2) ->
           search_similar_jobs cl emb size st = (Ok r, st2))
        /\ (forall e' st2,
              c_search cl job_index (basic_search size) st1 = (Raise e', st2) ->
              search_similar_jobs cl emb size st = (Raise e, st2))).
Proof.
  intros emb. split; [split; reflexivity|]. split.
  - intros info st1 r st2 Hi Hv Hs.
    unfold search_similar_jobs, mtry, search_primary, mbind, lift. subst emb.
    rewrite nonempty_list_not_empty, Hi. cbv zeta.
    rewrite Hv, Hs. reflexivity.
  - intros e st1 Hfail.
    assert (Hp : search_primary cl emb size st = (Raise e, st1)).
    { unfold search_primary, mbind, lift. subst emb.
      rewrite nonempty_list_not_empty.
      destruct Hfail as [-> | (info & st0 & -> & Hv & Hs)]; [reflexivity|].
      cbv zeta. rewrite Hv, Hs. reflexivity. }
    split.
    + intros r st2 Hs. unfold search_similar_jobs, mtry. rewrite Hp, Hs. reflexivity.
    + intros e' st2 Hs. unfold search_similar_jobs, mtry, raise.
      rewrite Hp, Hs. reflexivity.
Qed.

Lemma search_similar_jobs_degrades_to_unsorted_query_witness :
  search_similar_jobs Engine.standard (JList [JFloat 1; JFloat 0]) 1
    (Scenarios.cluster_of (py "1.3.0")
       [(py "j-old", Scenarios.job_old); (py "j-new", Scenarios.job_new)])
  = (Ok (SearchResponse 1 1
           [Hit (py "j-old") 1 (dict_remove (py "job_embedding") Scenarios.job_old)]),
     Scenarios.cluster_of (py "1.3.0")
       [(py "j-old", Scenarios.job_old); (py "j-new", Scenarios.job_new)]).
Proof.
  apply (proj1 (proj2 (search_similar_jobs_degrades_to_unsorted_query
                         Engine.cluster Engine.standard (JFloat 1) [JFloat 0] 1
                         (Scenarios.cluster_of (py "1.3.0")
                            [(py "j-old", Scenarios.job_old);
                             (py "j-new", Scenarios.job_new)])))
           (ClusterInfo (Some (py "1.3.0")))
           (Scenarios.cluster_of (py "1.3.0")
              [(py "j-old", Scenarios.job_old); (py "j-new", Scenarios.job_new)]));
    vm_compute; reflexivity.
Defined.

(** C4 (as stated) fails twice.  On a cluster without vector search that
    holds an older job with a vector and a newer job without one, a
    search of size 1 returns the older job, not the most recently scraped
    one; and on an unreachable cluster the search raises. *)
Lemma search_fallback_not_most_recent :
  let st := Scenarios.cluster_of (py "1.3.0")
              [(py "j-old", Scenarios.job_old); (py "j-new", Scenarios.job_new)] in
  supports_knn (py "1.3.0") = false
  /\ dict_get (py "scraped_date") Scenarios.job_old = Some (JInt 1000)
  /\ dict_get (py "scraped_date") Scenarios.job_new = Some (JInt 2000)
  /\ (exists resp,
        search_similar_jobs Engine.standard (JList [JFloat 1; JFloat 0]) 1 st
        = (Ok resp, st)
        /\ map _id (hits resp) = [py "j-old"])
  /\ search_similar_jobs Engine.standard (JList [JFloat 1; JFloat 0]) 1 Scenarios.down
     = (Raise Engine.connection_error, Scenarios.down).
Proof.
  intros st. split; [reflexivity|]. split; [reflexivity|]. split; [reflexivity|].
  split; [|vm_compute; reflexivity].
  eexists. split; vm_compute; reflexivity.
Qed.

(* ------------------------------------------------------------------ *)
(** ** Further properties of the embedding adapter *)
(* ------------------------------------------------------------------ *)

Lemma forallb_filter_nil {A} (p : A -> bool) (l : list A) :
  forallb p l = true <-> filter (fun x => negb (p x)) l = [].
Proof.
  induction l as [|x l IH]; simpl; [tauto|].
  destruct (p x); simpl; [exact IH|]. split; discriminate.
Qed.

Lemma numeric_not_none l :
  forallb is_int_or_float l = true ->
  forallb (fun x => is_int_or_float x && negb (is_none x)) l = true.
Proof.
  induction l as [|x l IH]; simpl; [reflexivity|].
  intros H. apply andb_true_iff in H as [Hx Hl]. rewrite (IH Hl), andb_true_r.
  destruct x; try discriminate; reflexivity.
Qed.

Lemma numeric_no_none l :
  forallb is_int_or_float l = true -> filter is_none l = [].
Proof.
  induction l as [|x l IH]; simpl; [reflexivity|].
  intros H. apply andb_true_iff in H as [Hx Hl].
  destruct x; try discriminate; simpl; auto.
Qed.

(** The three validators of the program accept the same values: the
    check of [_call_bedrock], the check of [index_job_document] and
    [utils.validate_embedding] all accept exactly the non-empty lists of
    [int] and [float] entries. *)
Theorem validators_agree (v : json) :
  Utils.validate_embedding v = embedding_is_valid v
  /\ (validate_raw v = Ok v <-> embedding_is_valid v = true)
  /\ (embedding_is_valid v = true <->
      exists x l, v = JList (x :: l) /\ forallb is_int_or_float (x :: l) = true).
Proof.
  assert (Hchar : embedding_is_valid v = true <->
                  exists x l, v = JList (x :: l)
                              /\ forallb is_int_or_float (x :: l) = true).
  { split.
    - destruct v as [| | | | |l|]; try discriminate. destruct l as [|x l]; [discriminate|].
      unfold embedding_is_valid. intros H. apply andb_true_iff in H as [_ H].
      exists x, l. split; [reflexivity|].
      clear -H. induction (x :: l) as [|y t IH]; simpl in *; [reflexivity|].
      apply andb_true_iff in H as [Hy Ht]. apply andb_true_iff in Hy as [-> _].
      simpl. auto.
    - intros (x & l & -> & H). unfold embedding_is_valid.
      rewrite (numeric_not_none _ H). reflexivity. }
  split; [|split; [|exact Hchar]].
  - destruct (Bool.bool_dec (embedding_is_valid v) true) as [E|E];
      [rewrite E|apply not_true_is_false in E; rewrite E].
    + apply Hchar in E as (x & l & -> & H).
      unfold Utils.validate_embedding. cbn [truthy negb].
      unfold len. cbn [length]. rewrite H. reflexivity.
    + destruct v as [| | | | |l|]; try reflexivity;
        try (unfold Utils.validate_embedding; destruct (negb _); reflexivity).
      destruct l as [|x l]; [reflexivity|].
      unfold Utils.validate_embedding. cbn [truthy negb]. unfold len. cbn [length].
      destruct (forallb is_int_or_float (x :: l)) eqn:F; [|reflexivity].
      exfalso. assert (embedding_is_valid (JList (x :: l)) = true).
      { apply Hchar. eauto. }
      congruence.
  - rewrite Hchar. split.
    + destruct v as [| | | | |l|]; try discriminate.
      unfold validate_raw. destruct l as [|x l]; [discriminate|].
      destruct (filter is_none (x :: l)) eqn:En; [|discriminate].
      destruct (filter (fun v => negb (is_int_or_float v)) (x :: l)) eqn:Ef; [|discriminate].
      intros _. exists x, l. split; [reflexivity|].
      apply forallb_filter_nil. exact Ef.
    + intros (x & l & -> & H). unfold validate_raw.
      rewrite (numeric_no_none _ H).
      apply forallb_filter_nil in H. rewrite H. reflexivity.
Qed.

(** Whatever the model answers, a vector returned by
    [generate_embedding] is a non-empty list of numbers: it passes the
    validation of [index_job_document] and [utils.validate_embedding],
    and it is truthy, so [index_cv_document] keeps it. *)
Theorem generate_embedding_returns_valid_vector
    (bedrock : pystr -> json -> nat -> result json)
    (self : service) (text : pystr) (tr0 tr : trace) (emb : json) :
  generate_embedding bedrock self text tr0 = (Ok emb, tr) ->
  embedding_is_valid emb = true
  /\ Utils.validate_embedding emb = true
  /\ embedding_is_empty emb = Ok false.
Proof.
  intros H.
  assert (Hv : embedding_is_valid emb = true).
  { unfold generate_embedding in H.
    destruct (negb (truthy (JStr text)) || (len (strip text) <? 5)%N) eqn:E;
      [discriminate H|].
    assert (Hadm : (5 <= len (strip text))%N).
    { apply orb_false_iff in E as [_ E]. apply N.ltb_ge in E. exact E. }
    pose proof (generate_embedding_admissible bedrock self text tr0 Hadm) as G.
    unfold generate_embedding in G. rewrite E in G. rewrite G in H. clear G.
    rewrite call_bedrock_3 in H. cbv zeta in H.
    repeat match type of H with
      | match ?x with _ => _ end = _ =>
          let Eo := fresh "Eo" in destruct x eqn:Eo
      end; try discriminate H;
      injection H as <- _;
      match goal with
      | Eo : bind _ validate_raw = Ok ?a |- _ =>
          apply bind_validate_ok in Eo; apply (proj1 (proj2 (validators_agree a))), Eo
      end. }
  split; [exact Hv|]. split.
  - rewrite (proj1 (validators_agree emb)). exact Hv.
  - apply (proj2 (proj2 (validators_agree emb))) in Hv as (x & l & -> & _).
    apply nonempty_list_not_empty.
Qed.

Lemma generate_embedding_returns_valid_vector_witness :
  embedding_is_valid (JList [JFloat (1 # 2); JFloat (1 # 4)]) = true
  /\ Utils.validate_embedding (JList [JFloat (1 # 2); JFloat (1 # 4)]) = true
  /\ embedding_is_empty (JList [JFloat (1 # 2); JFloat (1 # 4)]) = Ok false.
Proof.
  apply (generate_embedding_returns_valid_vector Scenarios.always_up
           (Service Scenarios.primary 2) (py "hello world") []
           [Invoke Scenarios.primary
              (request_body_for Scenarios.primary (py "hello world"))]).
  vm_compute. reflexivity.
Defined.

Lemma invocations_app a b : invocations (a ++ b) = invocations a ++ invocations b.
Proof. unfold invocations. apply filter_app. Qed.

Lemma sleeps_app a b : sleeps (a ++ b) = sleeps a ++ sleeps b.
Proof. unfold sleeps. apply flat_map_app. Qed.

(** The retry loop, for any bound and from any iteration: the number of
    invocations, the sleeps between them and the way it ends. *)
Lemma call_loop_bounded bedrock m text n :
  forall rem att tr r tr',
    (att + rem = n)%nat ->
    call_loop bedrock m text n rem att tr = (r, tr') ->
    exists k,
      (k <= rem)%nat
      /\ ((0 < rem)%nat -> (0 < k)%nat)
      /\ invocations tr'
         = invocations tr ++ repeat (Invoke m (request_body_for m text)) k
      /\ sleeps tr'
         = sleeps tr ++ map (fun i => 2 ^ N.of_nat i)%N (seq att (k - 1))
      /\ (forall e, r = Raise e -> k = rem)
      /\ (forall v, r = Ok v ->
            (rem = 0%nat /\ v = JNull /\ tr' = tr) \/ validate_raw v = Ok v).
Proof.
  induction rem as [|rem IH]; intros att tr r tr' Hn H.
  - cbn [call_loop] in H. unfold ret in H. injection H as <- <-.
    exists 0%nat. cbn [repeat seq map]. rewrite !app_nil_r.
    repeat split; try lia; try discriminate. intros v [= <-]. left. auto.
  - rewrite call_loop_step in H.
    destruct (bind _ validate_raw) as [emb|e] eqn:E.
    + injection H as <- <-. exists 1%nat.
      rewrite invocations_app, sleeps_app. cbn. rewrite app_nil_r.
      repeat split; try lia; try discriminate.
      intros v [= <-]. right. exact (bind_validate_ok _ _ E).
    + destruct (att <? n - 1)%nat eqn:Hlt.
      * apply Nat.ltb_lt in Hlt.
        apply IH in H as (k & Hk & Hpos & Hinv & Hsl & Hr & Ho); [|lia].
        assert (0 < k)%nat by (apply Hpos; lia).
        exists (S k).
        rewrite !invocations_app, !sleeps_app in *. cbn in Hinv, Hsl.
        rewrite !app_nil_r in *.
        split; [lia|]. split; [lia|]. split.
        { rewrite Hinv, <- app_assoc. reflexivity. }
        split.
        { rewrite Hsl, <- app_assoc. cbn [app]. f_equal.
          replace (S k - 1)%nat with (S (k - 1)) by lia. reflexivity. }
        split.
        { intros e' He'. f_equal. eauto. }
        { intros v Hv. destruct (Ho v Hv) as [(Hz & _)|Hval]; [lia|]. right. exact Hval. }
      * apply Nat.ltb_ge in Hlt. injection H as <- <-. exists 1%nat.
        rewrite invocations_app, sleeps_app. cbn. rewrite app_nil_r.
        repeat split; try lia; try discriminate.
Qed.

(** [_call_bedrock] for every retry bound: it invokes the model at least
    once and at most [max_retries] times, always with the same request,
    sleeps 1, 2, 4, ... seconds between consecutive attempts, raises only
    after [max_retries] failed attempts, and with a bound of zero it
    returns [None] without any invocation. *)
Theorem call_bedrock_attempts_bounded
    (bedrock : pystr -> json -> nat -> result json)
    (m text : pystr) (max_retries : nat) (tr0 tr : trace) (r : result json) :
  _call_bedrock bedrock m text max_retries tr0 = (r, tr) ->
  exists k,
    (k <= max_retries)%nat
    /\ ((0 < max_retries)%nat -> (0 < k)%nat)
    /\ invocations tr
       = invocations tr0 ++ repeat (Invoke m (request_body_for m text)) k
    /\ sleeps tr = sleeps tr0 ++ map (fun i => 2 ^ N.of_nat i)%N (seq 0 (k - 1))
    /\ (forall e, r = Raise e -> k = max_retries)
    /\ (forall v, r = Ok v -> max_retries <> 0%nat -> validate_raw v = Ok v)
    /\ (max_retries = 0%nat -> r = Ok JNull /\ tr = tr0).
Proof.
  intros H. unfold _call_bedrock in H.
  destruct (call_loop_bounded bedrock m text max_retries max_retries 0 tr0 r tr
              eq_refl H) as (k & Hk & Hpos & Hinv & Hsl & Hr & Ho).
  exists k. do 5 (split; [assumption|]). split.
  - intros v Hv Hn. destruct (Ho v Hv) as [(Hz & _)|Hval]; [contradiction|exact Hval].
  - intros ->. cbn [call_loop] in H. unfold ret in H. split; congruence.
Qed.

Lemma call_bedrock_attempts_bounded_witness :
  exists k,
    (k <= 5)%nat /\ ((0 < 5)%nat -> (0 < k)%nat)
    /\ invocations
         (snd (_call_bedrock Scenarios.primary_down Scenarios.primary (py "test") 5 []))
       = [] ++ repeat (Invoke Scenarios.primary
                         (request_body_for Scenarios.primary (py "test"))) k
    /\ sleeps
         (snd (_call_bedrock Scenarios.primary_down Scenarios.primary (py "test") 5 []))
       = [] ++ map (fun i => 2 ^ N.of_nat i)%N (seq 0 (k - 1))
    /\ k = 5%nat.
Proof.
  destruct (call_bedrock_attempts_bounded Scenarios.primary_down Scenarios.primary
              (py "test") 5 []
              (snd (_call_bedrock Scenarios.primary_down Scenarios.primary (py "test") 5 []))
              (Raise (Exn "ReadTimeoutError" (py "Read timeout on endpoint URL"))))
    as (k & Hk & Hpos & Hinv & Hsl & Hr & _).
  - vm_compute. reflexivity.
  - exists k. repeat split; auto. apply (Hr _ eq_refl).
Defined.

Lemma validated_is_nonempty_list v :
  validate_raw v = Ok v -> exists x l, v = JList (x :: l).
Proof.
  intros H. apply (proj1 (proj2 (validators_agree v))) in H.
  apply (proj2 (proj2 (validators_agree v))) in H as (x & l & -> & _). eauto.
Qed.

(** [_initialize_model] tries the primary model with three attempts and
    moves on to the secondary only after three failures.  The adapter it
    returns uses one of the two model ids and has a positive
    dimensionality; it fails, with "No Titan embedding model available",
    only after three failed attempts on each model. *)
Theorem initialize_model_outcomes
    (bedrock : pystr -> json -> nat -> result json)
    (tr0 tr : trace) (r : result service) :
  _initialize_model bedrock tr0 = (r, tr) ->
  exists kp kq,
    invocations tr
    = invocations tr0
        ++ repeat (Invoke Scenarios.primary
                     (request_body_for Scenarios.primary (py "test"))) kp
        ++ repeat (Invoke Scenarios.secondary
                     (request_body_for Scenarios.secondary (py "test"))) kq
    /\ (1 <= kp <= 3)%nat /\ (kq <= 3)%nat
    /\ (forall svc, r = Ok svc ->
          (0 < embedding_dims svc)%nat
          /\ ((current_model svc = Scenarios.primary /\ kq = 0%nat)
              \/ (current_model svc = Scenarios.secondary
                  /\ kp = 3%nat /\ (1 <= kq)%nat)))
    /\ (forall e, r = Raise e ->
          e = Exn "Exception" (py "No Titan embedding model available")
          /\ kp = 3%nat /\ kq = 3%nat).
Proof.
  unfold _initialize_model, model_ids. cbn [initialize_from].
  change (py "amazon.titan-embed-text-v2:0") with Scenarios.primary.
  change (py "amazon.titan-embed-text-v1") with Scenarios.secondary.
  destruct (_call_bedrock bedrock Scenarios.primary (py "test") 3 tr0)
    as [r1 tr1] eqn:E1.
  apply call_bedrock_attempts_bounded in E1
    as (k1 & Hk1 & Hp1 & Hi1 & _ & Hr1 & Ho1 & _).
  assert (H1 : (1 <= k1)%nat) by (apply Hp1; lia).
  destruct r1 as [v1|e1].
  { destruct (validated_is_nonempty_list v1 (Ho1 v1 eq_refl ltac:(discriminate)))
      as (x & l & ->).
    cbn [truthy]. intros [= <- <-]. exists k1, 0%nat.
    cbn [repeat]. rewrite app_nil_r.
    split; [exact Hi1|]. split; [lia|]. split; [lia|]. split.
    - intros svc [= <-]. cbn. split; [lia|]. left. auto.
    - discriminate. }
  pose proof (Hr1 e1 eq_refl) as ->.
  destruct (_call_bedrock bedrock Scenarios.secondary (py "test") 3 tr1)
    as [r2 tr2] eqn:E2.
  apply call_bedrock_attempts_bounded in E2
    as (k2 & Hk2 & Hp2 & Hi2 & _ & Hr2 & Ho2 & _).
  assert (H2 : (1 <= k2)%nat) by (apply Hp2; lia).
  destruct r2 as [v2|e2].
  { destruct (validated_is_nonempty_list v2 (Ho2 v2 eq_refl ltac:(discriminate)))
      as (x & l & ->).
    cbn [truthy]. intros [= <- <-]. exists 3%nat, k2.
    split; [rewrite Hi2, Hi1, <- app_assoc; reflexivity|].
    split; [lia|]. split; [lia|]. split.
    - intros svc [= <-]. cbn. split; [lia|]. right. auto.
    - discriminate. }
  pose proof (Hr2 e2 eq_refl) as ->.
  unfold raise. intros [= <- <-]. exists 3%nat, 3%nat.
  split; [rewrite Hi2, Hi1, <- app_assoc; reflexivity|].
  split; [lia|]. split; [lia|]. split.
  - discriminate.
  - intros e [= <-]. auto.
Qed.

Lemma initialize_model_outcomes_witness :
  exists kp kq,
    invocations (snd (_initialize_model Scenarios.primary_down []))
    = [] ++ repeat (Invoke Scenarios.primary
                      (request_body_for Scenarios.primary (py "test"))) kp
         ++ repeat (Invoke Scenarios.secondary
                      (request_body_for Scenarios.secondary (py "test"))) kq
    /\ kp = 3%nat /\ (1 <= kq)%nat.
Proof.
  destruct (initialize_model_outcomes Scenarios.primary_down []
              (snd (_initialize_model Scenarios.primary_down []))
              (Ok (Service Scenarios.secondary 2)))
    as (kp & kq & Hinv & _ & _ & Hok & _).
  - vm_compute. reflexivity.
  - exists kp, kq. split; [exact Hinv|].
    destruct (Hok _ eq_refl) as (_ & [(Habs & _)|(_ & Hkp & Hkq)]).
    + vm_compute in Habs. discriminate Habs.
    + auto.
Defined.

(** ** Whitespace around the text *)

Lemma rstrip_cons c s :
  rstrip (c :: s)
  = match rstrip s with
    | [] => if isspace c then [] else [c]
    | d :: r => c :: d :: r
    end.
Proof. reflexivity. Qed.

Lemma rstrip_idempotent s : rstrip (rstrip s) = rstrip s.
Proof.
  induction s as [|c s IH]; [reflexivity|]. rewrite (rstrip_cons c s).
  destruct (rstrip s) as [|d r] eqn:E.
  - destruct (isspace c) eqn:Ec; [reflexivity|]. cbn [rstrip]. rewrite Ec. reflexivity.
  - rewrite rstrip_cons, IH. reflexivity.
Qed.

Lemma rstrip_head s c : hd_error (rstrip s) = Some c -> hd_error s = Some c.
Proof.
  destruct s as [|d s]; [discriminate|]. cbn [rstrip].
  destruct (rstrip s); [destruct (isspace d)|]; cbn; congruence.
Qed.

Lemma lstrip_head s c : hd_error (lstrip s) = Some c -> isspace c = false.
Proof.
  induction s as [|d s IH]; [discriminate|]. cbn [lstrip].
  destruct (isspace d) eqn:E; [exact IH|]. cbn. congruence.
Qed.

(** [strip] is idempotent. *)
Lemma strip_idempotent s : strip (strip s) = strip s.
Proof.
  unfold strip. rewrite (lstrip_fixed (rstrip (lstrip s))).
  - apply rstrip_idempotent.
  - intros c H. apply rstrip_head in H. apply lstrip_head in H. exact H.
Qed.

(** [generate_embedding] does not see leading or trailing whitespace:
    the request, the events and the outcome for a text are those for
    the trimmed text. *)
Theorem generate_embedding_ignores_surrounding_whitespace
    (bedrock : pystr -> json -> nat -> result json)
    (self : service) (text : pystr) (tr0 : trace) :
  generate_embedding bedrock self text tr0
  = generate_embedding bedrock self (strip text) tr0.
Proof.
  unfold generate_embedding, prepare_text. rewrite !strip_idempotent.
  destruct (len (strip text) <? 5)%N eqn:E; [rewrite !orb_true_r; reflexivity|].
  rewrite !orb_false_r.
  assert (Hne : forall s, (len s <? 5)%N = false -> truthy (JStr s) = true).
  { intros [|x s] Hs; [vm_compute in Hs; discriminate|reflexivity]. }
  rewrite (Hne (strip text) E).
  assert (truthy (JStr text) = true) as ->; [|reflexivity].
  destruct text; [vm_compute in E; discriminate|reflexivity].
Qed.

(* ------------------------------------------------------------------ *)
(** ** Further properties of the index store *)
(* ------------------------------------------------------------------ *)

Lemma dict_get_remove_other k k' d :
  str_eqb k k' = false -> dict_get k (dict_remove k' d) = dict_get k d.
Proof.
  intros Hk. induction d as [|[k'' v] d IH]; [reflexivity|].
  unfold dict_remove in *. cbn [filter fst].
  destruct (str_eqb k'' k') eqn:E; cbn [negb dict_get].
  - apply str_eqb_eq in E as ->. rewrite Hk. exact IH.
  - destruct (str_eqb k k''); [reflexivity|exact IH].
Qed.

(** [index_cv_document] rejects a document without [user_id] or without
    [cv_text] with a [ValueError] naming the first missing field, before
    any call to the store. *)
Theorem index_cv_document_requires_fields
    (S : Type) (cl : client S) (user_id : pystr) (document : dict) (st : S) :
  (dict_in (py "user_id") document = false ->
   index_cv_document cl user_id document st
   = (Raise (ValueError (py "Missing required field: " ++ py "user_id")), st))
  /\ (dict_in (py "user_id") document = true ->
      dict_in (py "cv_text") document = false ->
      index_cv_document cl user_id document st
      = (Raise (ValueError (py "Missing required field: " ++ py "cv_text")), st)).
Proof.
  split.
  - intros H. unfold index_cv_document, mbind, lift. cbn [check_required].
    rewrite H. reflexivity.
  - intros H1 H2. unfold index_cv_document, mbind, lift. cbn [check_required].
    rewrite H1, H2. reflexivity.
Qed.

Lemma index_cv_document_requires_fields_witness :
  index_cv_document Engine.standard (py "u9")
    [(py "user_id", JStr (py "u9"))] Scenarios.down
  = (Raise (ValueError (py "Missing required field: " ++ py "cv_text")),
     Scenarios.down).
Proof.
  apply (proj2 (index_cv_document_requires_fields Engine.cluster Engine.standard
                  (py "u9") [(py "user_id", JStr (py "u9"))] Scenarios.down));
    reflexivity.
Defined.

(** A [cv_embedding] that is [None], empty or otherwise falsy is dropped:
    the store receives the document without that field and with every
    other field as it was.  A truthy value without a length makes the
    call raise before anything is written. *)
Theorem index_cv_document_drops_falsy_embedding
    (S : Type) (cl : client S) (user_id : pystr) (document : dict)
    (embedding : json) (st : S) :
  dict_in (py "user_id") document = true ->
  dict_in (py "cv_text") document = true ->
  dict_get (py "cv_embedding") document = Some embedding ->
  (truthy embedding = false ->
   index_cv_document cl user_id document st
   = c_index cl cv_index user_id (dict_remove (py "cv_embedding") document) st
   /\ dict_in (py "cv_embedding") (dict_remove (py "cv_embedding") document) = false
   /\ forall k, str_eqb k (py "cv_embedding") = false ->
        dict_get k (dict_remove (py "cv_embedding") document) = dict_get k document)
  /\ (forall e, truthy embedding = true -> json_len embedding = Raise e ->
      index_cv_document cl user_id document st = (Raise e, st)).
Proof.
  intros Hu Ht He. split.
  - intros Hf. split; [|split].
    + unfold index_cv_document, mbind, lift, ret. cbn [check_required].
      rewrite Hu, Ht. unfold dict_in at 1. rewrite He.
      rewrite (dict_get_default_some _ _ _ _ He).
      unfold embedding_is_empty. rewrite Hf. reflexivity.
    + apply dict_in_remove_same.
    + intros k Hk. apply dict_get_remove_other, Hk.
  - intros e Htr Hlen.
    unfold index_cv_document, mbind, lift, ret. cbn [check_required].
    rewrite Hu, Ht. unfold dict_in at 1. rewrite He.
    rewrite (dict_get_default_some _ _ _ _ He).
    unfold embedding_is_empty. rewrite Htr, Hlen. reflexivity.
Qed.

Lemma index_cv_document_drops_falsy_embedding_witness :
  let document := [(py "user_id", JStr (py "u9"));
                   (py "cv_text", JStr (py "Data analyst"));
                   (py "cv_embedding", JList [])] in
  index_cv_document Engine.standard (py "u9") document
    (Scenarios.cluster_of (py "2.11.0") [])
  = c_index Engine.standard cv_index (py "u9")
      [(py "user_id", JStr (py "u9")); (py "cv_text", JStr (py "Data analyst"))]
      (Scenarios.cluster_of (py "2.11.0") []).
Proof.
  intros document.
  apply (proj1 (proj1 (index_cv_document_drops_falsy_embedding Engine.cluster
                         Engine.standard (py "u9") document (JList [])
                         (Scenarios.cluster_of (py "2.11.0") [])
                         eq_refl eq_refl eq_refl) eq_refl)).
Defined.

Lemma index_job_document_strips_invalid_witness :
  let document := [(py "job_id", JStr (py "j1"));
                   (py "job_embedding", JList [JNull; JFloat 1])] in
  dict_in (py "job_embedding") (doc_to_index document) = false
  /\ dict_get (py "embedding_status") (doc_to_index document)
     = Some (JStr (py "invalid_embedding_removed")).
Proof.
  intros document.
  destruct (index_job_document_strips_invalid Engine.cluster Engine.standard
              (py "j1") document (Scenarios.cluster_of (py "2.11.0") [])
              eq_refl eq_refl) as (H1 & H2 & _).
  split; [exact H1|exact H2].
Defined.

(** When the first write of [index_job_document] is refused: an error
    whose message mentions [job_embedding], [knn_vector] or [null] leads
    to exactly one retry, with a document that has no [job_embedding]
    and is tagged [removed_due_to_indexing_error], and the outcome of the
    retry is the outcome of the call; any other error is raised as it
    is, without a retry. *)
Theorem index_job_document_retry
    (S : Type) (cl : client S) (job_id : pystr) (document : dict)
    (st st1 : S) (e : exn) :
  c_index cl job_index job_id (doc_to_index document) st = (Raise e, st1) ->
  (looks_embedding_related e = false ->
   index_job_document cl job_id document st = (Raise e, st1))
  /\ (looks_embedding_related e = true ->
      index_job_document cl job_id document st
      = c_index cl job_index job_id (doc_retry document) st1
      /\ dict_in (py "job_embedding") (doc_retry document) = false
      /\ dict_get (py "embedding_status") (doc_retry document)
         = Some (JStr (py "removed_due_to_indexing_error"))).
Proof.
  intros H. split.
  - intros Hl. unfold index_job_document, mtry. rewrite H, Hl. reflexivity.
  - intros Hl. split; [|split].
    + unfold index_job_document, mtry. rewrite H, Hl.
      destruct (c_index cl job_index job_id (doc_retry document) st1) as [[r|e'] st2];
        reflexivity.
    + unfold doc_retry, dict_in. rewrite dict_get_set_other by reflexivity.
      rewrite dict_get_remove_same. reflexivity.
    + apply dict_get_set_same.
Qed.

Lemma index_job_document_retry_witness :
  let document := [(py "job_id", JStr (py "j1"));
                   (py "job_embedding", JList [JBool true; JFloat 1])] in
  let strict := Engine.Cluster true (Some (py "2.11.0")) true true [] in
  embedding_is_valid (JList [JBool true; JFloat 1]) = true
  /\ exists st,
       index_job_document Engine.standard (py "j1") document strict
       = (Ok Created, st)
       /\ Engine.index_docs job_index (Engine.indices st)
          = Some [(py "j1",
                   [(py "job_id", JStr (py "j1"));
                    (py "embedding_status",
                     JStr (py "removed_due_to_indexing_error"))])].
Proof.
  intros document strict. split; [reflexivity|].
  rewrite (proj1 (proj2 (index_job_document_retry Engine.cluster Engine.standard
                           (py "j1") document strict strict
                           (Engine.mapping_error (py "job_embedding"))
                           eq_refl) eq_refl)).
  eexists. split; vm_compute; reflexivity.
Defined.

(** With a query vector that is [None], empty or otherwise falsy,
    [search_similar_jobs] does not consult the cluster version and does
    not run a vector query: it answers with the [match_all] query, and
    raises the "CV embedding is empty" error only if that query fails. *)
Theorem search_similar_jobs_without_vector
    (S : Type) (cl : client S) (cv_embedding : json) (size : nat) (st : S) :
  truthy cv_embedding = false ->
  search_similar_jobs cl cv_embedding size st
  = match c_search cl job_index (basic_search size) st with
    | (Ok response, st') => (Ok response, st')
    | (Raise _, st') => (Raise (ValueError (py "CV embedding is empty")), st')
    end.
Proof.
  intros H. unfold search_similar_jobs, mtry, search_primary, mbind, lift, raise.
  unfold embedding_is_empty. rewrite H. cbn [negb].
  destruct (c_search cl job_index (basic_search size) st) as [[r|e] st']; reflexivity.
Qed.

Lemma search_similar_jobs_without_vector_witness :
  let st := Scenarios.cluster_of (py "2.11.0")
              [(py "j-new", Scenarios.job_new); (py "j-old", Scenarios.job_old)] in
  exists response,
    search_similar_jobs Engine.standard (JList []) 10 st = (Ok response, st)
    /\ map _id (hits response) = [py "j-new"; py "j-old"].
Proof.
  intros st.
  rewrite (search_similar_jobs_without_vector Engine.cluster Engine.standard
             (JList []) 10 st eq_refl).
  eexists. split; vm_compute; reflexivity.
Defined.

Lemma run_search_size similarity knn_candidate body docs :
  (length (hits (Engine.run_search similarity knn_candidate body docs))
   <= sb_size body)%nat.
Proof.
  unfold Engine.run_search. cbn [hits]. rewrite length_map, length_firstn. lia.
Qed.

(** A successful search of the reference cluster is [run_search] on the
    documents of the index. *)
Lemma e_search_ok similarity knn_candidate index body st r st' :
  Engine.e_search similarity knn_candidate index body st = (Ok r, st') ->
  st' = st
  /\ exists docs,
       Engine.index_docs index (Engine.indices st) = Some docs
       /\ r = Engine.run_search similarity knn_candidate body docs.
Proof.
  unfold Engine.e_search.
  destruct (negb (Engine.reachable st)); [discriminate|].
  destruct (Engine.index_docs index (Engine.indices st)) as [docs|]; [|discriminate].
  destruct (Engine.uses_knn _ && _); [discriminate|].
  intros [= <- <-]. eauto.
Qed.

(** The result of [search_similar_jobs] comes from one of its three
    search bodies. *)
Lemma search_similar_jobs_source S (cl : client S) emb size st r st' :
  search_similar_jobs cl emb size st = (Ok r, st') ->
  exists body st0,
    c_search cl job_index body st0 = (Ok r, st')
    /\ (body = knn_search emb size \/ body = exists_search size
        \/ body = basic_search size).
Proof.
  unfold search_similar_jobs, mtry.
  destruct (search_primary cl emb size st) as [[r1|e1] st1] eqn:E1.
  - intros [= <- <-]. revert E1. unfold search_primary, mbind, lift, raise.
    destruct (embedding_is_empty emb) as [[|]|]; try discriminate.
    destruct (c_info cl st) as [[info|] st0]; [|discriminate].
    destruct (supports_knn (reported_version info)); intros H; eauto 6.
  - unfold raise.
    destruct (c_search cl job_index (basic_search size) st1) as [[r2|e2] st2] eqn:E2;
      [|discriminate].
    intros [= <- <-]. eauto 6.
Qed.

(** On the reference cluster, whatever path [search_similar_jobs] takes,
    a response has at most [size] hits, none of which carries the
    [job_embedding] vector in its source. *)
Theorem search_similar_jobs_bounded_without_vectors
    (similarity : json -> option json -> Q)
    (knn_candidate : pystr -> json -> dict -> bool)
    (cv_embedding : json) (size : nat) (st st' : Engine.cluster)
    (response : search_response) :
  search_similar_jobs (Engine.engine similarity knn_candidate) cv_embedding size st
  = (Ok response, st') ->
  (length (hits response) <= size)%nat
  /\ Forall (fun h => dict_in (py "job_embedding") (_source h) = false)
            (hits response).
Proof.
  intros H. apply search_similar_jobs_source in H as (body & st0 & Hs & Hb).
  cbn [Engine.engine c_search] in Hs.
  assert (Hsz : sb_size body = size
                /\ sb_source_exclude body = [py "job_embedding"]).
  { destruct Hb as [-> | [-> | ->]]; split; reflexivity. }
  destruct Hsz as [Hsz Hex].
  apply e_search_ok in Hs as (_ & docs & Hd & ->).
  split.
  - rewrite <- Hsz. apply run_search_size.
  - apply Forall_forall. intros h Hh.
    apply run_search_hits in Hh as (d & _ & _ & Hsrc).
    rewrite Hsrc, Hex. cbn [Engine.project fold_right]. apply dict_in_remove_same.
Qed.

Lemma search_similar_jobs_bounded_without_vectors_witness :
  let st := Scenarios.cluster_of (py "2.11.0")
              [(py "j-new", Scenarios.job_new); (py "j-old", Scenarios.job_old)] in
  let response := SearchResponse 1 2
                    [Hit (py "j-new") 1 Scenarios.job_new] in
  (length (hits response) <= 1)%nat
  /\ Forall (fun h => dict_in (py "job_embedding") (_source h) = false)
            (hits response).
Proof.
  intros st response.
  apply (search_similar_jobs_bounded_without_vectors Engine.l2_similarity
           (fun field _ d => Engine.is_vector (dict_get_default field JNull d))
           JNull 1 st st response).
  vm_compute. reflexivity.
Defined.

(* ------------------------------------------------------------------ *)
(** ** Further properties of the recommendation handler *)
(* ------------------------------------------------------------------ *)

(** A request without a usable [user_id] is answered with status 400
    before the index store manager is even constructed: the answer does
    not depend on the manager and the store is left untouched. *)
Theorem handler_requires_user_id
    (fl : Q -> Q) (S : Type) (manager : result (client S))
    (request_body : dict) (st : S) :
  truthy (dict_get_default (py "user_id") JNull request_body) = false ->
  handle_recommendation_request fl manager request_body st
  = (create_api_response 400 [(py "error", JStr (py "user_id is required"))], st).
Proof.
  intros H. unfold handle_recommendation_request. rewrite H. reflexivity.
Qed.

Lemma handler_requires_user_id_witness :
  handle_recommendation_request Scenarios.exact
    (Raise Engine.connection_error : result (client Engine.cluster))
    [(py "user_id", JStr [])] Scenarios.down
  = (create_api_response 400 [(py "error", JStr (py "user_id is required"))],
     Scenarios.down).
Proof.
  apply (handler_requires_user_id Scenarios.exact Engine.cluster
           (Raise Engine.connection_error) [(py "user_id", JStr [])] Scenarios.down).
  reflexivity.
Defined.

(** The handler always answers, with one of the status codes 200, 400,
    404 and 500, whatever the request body was parsed to.  A 200 answer
    carries a non-empty [recommendations] list whose length is
    [total_recommendations].  A 500 answer is given exactly when the body
    is not a JSON object, or it has a usable [user_id] and either the
    manager could not be constructed or the similarity search for the
    vector of the profile found for that user raised. *)
Theorem handler_status_codes
    (fl : Q -> Q) (S : Type) (manager : result (client S))
    (parsed : json) (st : S) :
  let resp :=
    fst (Gateway.handle_recommendation_request_json fl manager parsed st) in
  (statusCode resp = 200 \/ statusCode resp = 400
   \/ statusCode resp = 404 \/ statusCode resp = 500)%Z
  /\ (statusCode resp = 200%Z ->
      exists fields recs,
        body resp = JDict fields
        /\ dict_get (py "recommendations") fields = Some (JList recs)
        /\ recs <> []
        /\ dict_get (py "total_recommendations") fields
           = Some (JInt (Z.of_nat (length recs))))
  /\ (statusCode resp = 500%Z <->
      (forall d, parsed <> JDict d)
      \/ exists d,
           parsed = JDict d
           /\ truthy (dict_get_default (py "user_id") JNull d) = true
           /\ ((exists e, manager = Raise e)
               \/ exists cl cv st1 e st2,
                    manager = Ok cl
                    /\ get_cv_by_user_id cl
                         (dict_get_default (py "user_id") JNull d) st
                       = (Some cv, st1)
                    /\ truthy (JDict cv) = true
                    /\ truthy (dict_get_default (py "cv_embedding") JNull cv) = true
                    /\ search_similar_jobs cl
                         (dict_get_default (py "cv_embedding") JNull cv) 10 st1
                       = (Raise e, st2))).
Proof.
  destruct parsed as [| | | | | |d];
    try (cbn; split; [auto|]; split; [discriminate|];
         split; [intros _; left; intros d; discriminate|reflexivity]).
  cbn [Gateway.handle_recommendation_request_json].
  unfold handle_recommendation_request.
  set (uid := dict_get_default (py "user_id") JNull d).
  match goal with |- _ /\ _ /\ (_ <-> ?R) => set (rhs := R) end.
  (* what the right-hand side of the equivalence says for this body *)
  assert (Hrhs :
    rhs ->
    truthy uid = true
    /\ ((exists e, manager = Raise e)
        \/ exists cl cv st1 e st2,
             manager = Ok cl
             /\ get_cv_by_user_id cl uid st = (Some cv, st1)
             /\ truthy (JDict cv) = true
             /\ truthy (dict_get_default (py "cv_embedding") JNull cv) = true
             /\ search_similar_jobs cl
                  (dict_get_default (py "cv_embedding") JNull cv) 10 st1
                = (Raise e, st2))).
  { intros [Hn | (d0 & Hd & Hu & Hrest)]; [exfalso; exact (Hn d eq_refl)|].
    injection Hd as <-. split; [exact Hu|exact Hrest]. }
  destruct (truthy uid) eqn:Hu; cbn [negb].
  2:{ cbn. split; [auto|]. split; [discriminate|]. split; [discriminate|].
      intros H. apply Hrhs in H as [H _]. discriminate H. }
  destruct manager as [cl|e].
  2:{ cbn. split; [auto|]. split; [discriminate|]. split; [|reflexivity].
      intros _. right. exists d. split; [reflexivity|]. split; [exact Hu|].
      left. eauto. }
  destruct (get_cv_by_user_id cl uid st) as [[cv|] st1] eqn:Hl.
  2:{ cbn. split; [auto|]. split; [discriminate|]. split; [discriminate|].
      intros H.
      apply Hrhs in H as [_ [[e He]|(cl' & cv' & st1' & e & st2 & Hm & Hl' & _)]];
        [discriminate He|].
      injection Hm as <-. rewrite Hl in Hl'. discriminate Hl'. }
  destruct (truthy (JDict cv)) eqn:Hc; cbn [negb].
  2:{ cbn. split; [auto|]. split; [discriminate|]. split; [discriminate|].
      intros H.
      apply Hrhs in H
        as [_ [[e He]|(cl' & cv' & st1' & e & st2 & Hm & Hl' & Hc' & _)]];
        [discriminate He|].
      injection Hm as <-. rewrite Hl in Hl'. injection Hl' as <- <-. congruence. }
  destruct (truthy (dict_get_default (py "cv_embedding") JNull cv)) eqn:He; cbn [negb].
  2:{ cbn. split; [auto|]. split; [discriminate|]. split; [discriminate|].
      intros H.
      apply Hrhs in H
        as [_ [[e Hm]|(cl' & cv' & st1' & e & st2 & Hm & Hl' & _ & He' & _)]];
        [discriminate Hm|].
      injection Hm as <-. rewrite Hl in Hl'. injection Hl' as <- <-. congruence. }
  destruct (search_similar_jobs cl _ 10 st1) as [[jobs|e] st2] eqn:Es.
  2:{ cbn. split; [auto|]. split; [discriminate|]. split; [|reflexivity].
      intros _. right. exists d. split; [reflexivity|]. split; [exact Hu|].
      right. exists cl, cv, st1, e, st2. auto. }
  assert (Hnot : ~ rhs).
  { intros H.
    apply Hrhs in H
      as [_ [[e Hm]|(cl' & cv' & st1' & e & st2' & Hm & Hl' & _ & _ & Hs')]];
      [discriminate Hm|].
    injection Hm as <-. rewrite Hl in Hl'. injection Hl' as <- <-.
    rewrite Es in Hs'. discriminate Hs'. }
  destruct (hits jobs) as [|h hs] eqn:Eh.
  { cbn. split; [auto|]. split; [discriminate|]. split; [discriminate|].
    intros H. exfalso. exact (Hnot H). }
  cbn [fst]. split; [left; reflexivity|]. split.
  - intros _. unfold recommendations_found, create_api_response. cbn [body].
    eexists. exists (map (recommendation fl) (hits jobs)).
    split; [reflexivity|]. split; [reflexivity|]. split.
    + rewrite Eh. discriminate.
    + reflexivity.
  - split; [discriminate|]. intros H. exfalso. exact (Hnot H).
Qed.

Lemma int_of_float_integer z : int_of_float (inject_Z z) = z.
Proof. unfold int_of_float, inject_Z. cbn. apply Z.quot_1_r. Qed.

(** Scores up to 1, which is what distance-based and constant-score
    queries produce, never give more than 10 percent: the factor 10
    maps the score range [0, 1] to [0, 10], not to [0, 100]. *)
Theorem match_percentage_of_unit_scores (fl : Q -> Q) (score : Q) :
  (forall x y, (x <= y)%Q -> (fl x <= fl y)%Q) ->
  (fl 10 == 10)%Q ->
  (score <= 1)%Q ->
  (0 <= match_percentage fl score <= 10)%Z.
Proof.
  intros Hmono H10 Hs.
  assert (H : (int_of_float (fl (score * 10)%Q) <= 10)%Z).
  { change 10%Z with (int_of_float (inject_Z 10)) at 2.
    - apply int_of_float_mono.
      apply Qle_trans with (fl 10%Q).
      + apply Hmono. setoid_replace 10%Q with (1 * 10)%Q at 2 by reflexivity.
        apply Qmult_le_compat_r; [exact Hs|discriminate].
      + rewrite H10. apply Qle_refl. }
  unfold match_percentage. lia.
Qed.

Lemma match_percentage_of_unit_scores_witness :
  (0 <= match_percentage Scenarios.exact (4 # 5) <= 10)%Z
  /\ match_percentage Scenarios.exact (4 # 5) = 8%Z.
Proof.
  split.
  - apply (match_percentage_of_unit_scores Scenarios.exact (4 # 5)).
    + intros x y H. exact H.
    + reflexivity.
    + discriminate.
  - reflexivity.
Defined.

(** ** Writing a candidate and reading it back *)

Lemma index_docs_set_index name docs ix :
  Engine.index_docs name (Engine.set_index name docs ix) = Some docs.
Proof.
  induction ix as [|[n old] ix IH]; cbn [Engine.set_index Engine.index_docs].
  - rewrite str_eqb_refl. reflexivity.
  - destruct (str_eqb name n) eqn:E; cbn [Engine.index_docs]; rewrite E; auto.
Qed.

Lemma filter_none {A} (P : A -> bool) (l : list A) :
  (forall x, In x l -> P x = false) -> filter P l = [].
Proof.
  induction l as [|x l IH]; [reflexivity|]. intros H. cbn [filter].
  rewrite (H x (or_introl eq_refl)). apply IH. intros y Hy. apply H. right. exact Hy.
Qed.

Lemma filter_upsert (P : pystr * dict -> bool) uid doc docs :
  NoDup (map fst docs) ->
  (forall id d, In (id, d) docs -> id <> uid -> P (id, d) = false) ->
  P (uid, doc) = true ->
  filter P (Engine.upsert uid doc docs) = [(uid, doc)].
Proof.
  intros Hnd Hother Hp. induction docs as [|[i old] rest IH]; cbn [Engine.upsert filter].
  - rewrite Hp. reflexivity.
  - inversion Hnd as [|? ? Hni Hnd']; subst.
    destruct (str_eqb uid i) eqn:E.
    + apply str_eqb_eq in E as <-. cbn [filter]. rewrite Hp. f_equal.
      apply filter_none. intros [j d] Hin. apply Hother; [right; exact Hin|].
      intros ->. apply Hni. apply (in_map fst) in Hin. exact Hin.
    + cbn [filter]. rewrite (Hother i old).
      * apply IH; [exact Hnd'|]. intros id d Hin. apply Hother. right. exact Hin.
      * left. reflexivity.
      * intros ->. rewrite str_eqb_refl in E. discriminate.
Qed.

Lemma term_matches_string knn_candidate field s d :
  Engine.matches knn_candidate (Term field (JStr s)) d = true
  <-> dict_get field d = Some (JStr s).
Proof.
  cbn [Engine.matches]. destruct (dict_get field d) as [v|]; [|split; discriminate].
  destruct v; cbn [Engine.scalar_eqb]; try (split; discriminate).
  rewrite str_eqb_eq. split; [intros ->; reflexivity|intros [= ->]; reflexivity].
Qed.

(** On the reference cluster, a candidate document written by
    [index_cv_document] with a non-empty vector, under the user id it
    carries, is what [get_cv_by_user_id] returns for that user id, minus
    the [cv_text] field and with the vector intact; provided no other
    stored profile carries the same [user_id]. *)
Theorem cv_written_then_read_back
    (similarity : json -> option json -> Q)
    (knn_candidate : pystr -> json -> dict -> bool)
    (st st' : Engine.cluster) (user_id : pystr) (document : dict)
    (x : json) (l : list json) (r : index_response) :
  let eng := Engine.engine similarity knn_candidate in
  let stored := match Engine.index_docs cv_index (Engine.indices st) with
                | Some docs => docs
                | None => []
                end in
  dict_get (py "user_id") document = Some (JStr user_id) ->
  dict_in (py "cv_text") document = true ->
  dict_get (py "cv_embedding") document = Some (JList (x :: l)) ->
  NoDup (map fst stored) ->
  (forall id d, In (id, d) stored -> id <> user_id ->
                dict_get (py "user_id") d <> Some (JStr user_id)) ->
  index_cv_document eng user_id document st = (Ok r, st') ->
  get_cv_by_user_id eng (JStr user_id) st'
  = (Some (dict_remove (py "cv_text") document), st')
  /\ dict_get (py "cv_embedding") (dict_remove (py "cv_text") document)
     = Some (JList (x :: l))
  /\ dict_in (py "cv_text") (dict_remove (py "cv_text") document) = false.
Proof.
  intros eng stored Hid Htext Hemb Hnd Hother Hidx.
  split; [|split;
           [rewrite dict_get_remove_other by reflexivity; exact Hemb
           |apply dict_in_remove_same]].
  (* the write *)
  revert Hidx. unfold index_cv_document, mbind, lift, ret. cbn [check_required].
  unfold dict_in at 1. rewrite Hid. rewrite Htext.
  unfold dict_in at 1. rewrite Hemb.
  rewrite (dict_get_default_some _ _ _ _ Hemb), nonempty_list_not_empty.
  subst eng. cbn [Engine.engine c_index]. unfold Engine.e_index.
  destruct (Engine.reachable st) eqn:Hr; [|discriminate]. cbn [negb].
  destruct (Engine.strict_vectors st && _ && _); [discriminate|].
  fold stored. intros [= _ <-].
  (* the lookup *)
  unfold get_cv_by_user_id, cv_lookup, mbind, ret.
  cbn [Engine.engine c_exists c_search]. unfold Engine.e_exists, Engine.e_search.
  cbn [Engine.reachable Engine.indices]. rewrite !index_docs_set_index.
  cbn [negb Engine.reachable Engine.indices].
  rewrite !index_docs_set_index.
  unfold cv_lookup_body. cbn [negb Engine.uses_knn andb sb_query].
  unfold Engine.run_search. cbn [sb_query sb_size sb_sort sb_source_exclude hits].
  rewrite (filter_upsert
             (fun kd => Engine.matches knn_candidate
                          (Term (py "user_id") (JStr user_id)) (snd kd))
             user_id document stored Hnd).
  - cbn [map fst snd Engine.sort_by fold_right Engine.insert_by firstn _source
           Engine.project].
    unfold lift.
    assert (dict_get_default (py "cv_embedding") (JList [])
              (dict_remove (py "cv_text") document) = JList (x :: l)) as ->.
    { apply dict_get_default_some.
      rewrite dict_get_remove_other by reflexivity. exact Hemb. }
    reflexivity.
  - intros id d Hin Hne. cbn [snd].
    destruct (Engine.matches knn_candidate (Term (py "user_id") (JStr user_id)) d)
      eqn:E; [|reflexivity].
    apply term_matches_string in E. exfalso. exact (Hother id d Hin Hne E).
  - cbn [snd]. apply term_matches_string. exact Hid.
Qed.

Lemma cv_written_then_read_back_witness :
  let document := [(py "user_id", JStr (py "u7"));
                   (py "cv_text", JStr (py "Backend developer, 4 years"));
                   (py "cv_embedding", JList [JFloat 0; JFloat 1])] in
  let st := Scenarios.cluster_of (py "2.11.0") [] in
  get_cv_by_user_id Engine.standard (JStr (py "u7"))
    (snd (index_cv_document Engine.standard (py "u7") document st))
  = (Some [(py "user_id", JStr (py "u7"));
           (py "cv_embedding", JList [JFloat 0; JFloat 1])],
     snd (index_cv_document Engine.standard (py "u7") document st)).
Proof.
  intros document st.
  refine (proj1 (cv_written_then_read_back Engine.l2_similarity
                   (fun field _ d => Engine.is_vector (dict_get_default field JNull d))
                   st _ (py "u7") document (JFloat 0) [JFloat 1] Created
                   eq_refl eq_refl eq_refl _ _ _)).
  - vm_compute. repeat constructor; simpl; intuition discriminate.
  - intros id d Hin Hne Hd. vm_compute in Hin.
    destruct Hin as [[= <- <-]|[[= <- <-]|[]]]; vm_compute in Hd; discriminate Hd.
  - vm_compute. reflexivity.
Defined.

Lemma handler_status_codes_witness :
  (exists fields recs,
     body (fst (Gateway.handle_recommendation_request_json Scenarios.exact
                  (Ok Engine.standard) (JDict (Scenarios.request "u1"))
                  (Scenarios.cluster_of (py "2.11.0")
                     [(py "j-old", Scenarios.job_old)])))
     = JDict fields
     /\ dict_get (py "recommendations") fields = Some (JList recs)
     /\ recs <> []
     /\ dict_get (py "total_recommendations") fields
        = Some (JInt (Z.of_nat (length recs))))
  /\ statusCode
       (fst (Gateway.handle_recommendation_request_json Scenarios.exact
               (Ok Engine.standard) (JList [JStr (py "u1")])
               (Scenarios.cluster_of (py "2.11.0") [])))
     = 500%Z.
Proof.
  split.
  - apply (proj1 (proj2 (handler_status_codes Scenarios.exact Engine.cluster
                           (Ok Engine.standard) (JDict (Scenarios.request "u1"))
                           (Scenarios.cluster_of (py "2.11.0")
                              [(py "j-old", Scenarios.job_old)])))).
    vm_compute. reflexivity.
  - apply (proj2 (proj2 (handler_status_codes Scenarios.exact Engine.cluster
                           (Ok Engine.standard) (JList [JStr (py "u1")])
                           (Scenarios.cluster_of (py "2.11.0") [])))).
    left. intros d. discriminate.
Defined.

Lemma validators_agree_witness :
  validate_raw (JList [JInt 1; JFloat (1 # 2)]) = Ok (JList [JInt 1; JFloat (1 # 2)]).
Proof.
  apply (proj2 (proj1 (proj2 (validators_agree (JList [JInt 1; JFloat (1 # 2)]))))).
  reflexivity.
Defined.

(** ** A stored vector without a length *)


